(** * janis-templates: SLURM/Singularity site templates

    A shallow embedding of [janis_templates/pawsey.py],
    [janis_templates/petermac.py] and [janis_templates/petermacdisconnected.py].

    - Python values that cross a call boundary as keyword arguments are a
      tagged union, [pyval]; a keyword dictionary is an ordered association
      list, the bound parameters of a call are a [gmap string pyval].
    - Exceptions are the [Raise] branch of [result]; code that assigns
      attributes of [self] or calls the base class runs in the state and
      error monad [M] over a [world] (the instance dictionary and the log
      of calls made to the base class).
    - [SlurmSingularityTemplate] (package janis_assistant) is an external
      collaborator: its two entry points are the fields of a class of the
      same name, and every statement holds for all of its instances; its
      configuration hook and its email renderer are variables of the
      section. *)

From Stdlib Require Import ZArith String Ascii List DecimalString DecimalZ.
From stdpp Require Import base option list strings gmap.

Open Scope Z_scope.
Open Scope string_scope.
Open Scope list_scope.

(* ===================================================================== *)
(** ** Strings *)
(* ===================================================================== *)

(** The double quote and the line feed, written by their codes. *)
Definition dquote : string := String "034"%char EmptyString.
Definition nl : string := String "010"%char EmptyString.

(** [sep.join(l)] *)
Definition join (sep : string) (l : list string) : string := String.concat sep l.

(** [s.startswith("/")] and [s.endswith("/")] *)
Definition startswith_sep (s : string) : bool :=
  match s with
  | String c _ => bool_decide (c = "/"%char)
  | EmptyString => false
  end.

Fixpoint endswith_sep (s : string) : bool :=
  match s with
  | EmptyString => false
  | String c EmptyString => bool_decide (c = "/"%char)
  | String _ s' => endswith_sep s'
  end.

(** [os.path.join(a, b)] on a POSIX host (posixpath.join with one
    component after the first). *)
Definition os_path_join (a b : string) : string :=
  if startswith_sep b then b
  else if bool_decide (a = "") || endswith_sep a then a +:+ b
  else a +:+ "/" +:+ b.

(** [str(z)] for a Python int. *)
Definition str_int (z : Z) : string := NilZero.string_of_int (Z.to_int z).

(** The tokens [b] stand next to each other, in this order, somewhere in
    the argument vector [l]. *)
Fixpoint contains_block (b l : list string) : bool :=
  bool_decide (b `prefix_of` l) ||
  match l with
  | [] => false
  | _ :: l' => contains_block b l'
  end.

(** A string that starts like a decimal numeral: a digit, or a minus sign
    and a digit. *)
Definition is_digit (c : ascii) : bool :=
  (48 <=? nat_of_ascii c)%nat && (nat_of_ascii c <=? 57)%nat.

Definition starts_like_int (s : string) : bool :=
  match s with
  | String c EmptyString => is_digit c
  | String c (String d _) =>
      is_digit c || (bool_decide (c = "-"%char) && is_digit d)
  | EmptyString => false
  end.

(* ===================================================================== *)
(** ** Python values, truthiness, [str] *)
(* ===================================================================== *)

(** janis_assistant's configuration object, as far as it is read here:
    [config.notifications.email]. *)
Record JanisConfigurationNotifications := { email : option string }.
Record JanisConfiguration :=
  { notifications : option JanisConfigurationNotifications }.

Inductive pyval :=
| VNone
| VBool (b : bool)
| VInt (z : Z)
| VStr (s : string)
| VList (l : list string)
| VConfig (c : JanisConfiguration).

#[global] Instance pyval_inhabited : Inhabited pyval := populate VNone.

#[global] Instance JanisConfigurationNotifications_eq_dec :
  EqDecision JanisConfigurationNotifications.
Proof. solve_decision. Defined.
#[global] Instance JanisConfiguration_eq_dec : EqDecision JanisConfiguration.
Proof. solve_decision. Defined.
#[global] Instance pyval_eq_dec : EqDecision pyval.
Proof. solve_decision. Defined.

(** [Union[str, List[str]]] *)
Inductive str_or_list :=
| OneStr (s : string)
| StrList (l : list string).

Definition val_of_opt_str (o : option string) : pyval :=
  match o with Some s => VStr s | None => VNone end.

(** [bool(v)] *)
Definition truthy (v : pyval) : bool :=
  match v with
  | VNone => false
  | VBool b => b
  | VInt z => negb (z =? 0)%Z
  | VStr s => negb (bool_decide (s = ""))
  | VList l => negb (bool_decide (l = []))
  | VConfig _ => true
  end.

(** What the interpreter prints for a list and for an object is not fixed
    by this repository. *)
Class PythonRuntime := {
  list_repr : list string → string;
  object_repr : JanisConfiguration → string;
  (* the order in which a set literal is iterated *)
  set_iter : list pyval → list pyval;
  set_iter_perm : ∀ l, set_iter l ≡ₚ l
}.

(** [str(v)], which is also what an f-string field [{v}] renders. *)
Definition py_str `{PythonRuntime} (v : pyval) : string :=
  match v with
  | VNone => "None"
  | VBool true => "True"
  | VBool false => "False"
  | VInt z => str_int z
  | VStr s => s
  | VList l => list_repr l
  | VConfig c => object_repr c
  end.

(** [x or d] on an optional int and on an optional string. *)
Definition int_or (x : option Z) (d : Z) : Z :=
  match x with
  | Some z => if (z =? 0)%Z then d else z
  | None => d
  end.

(** [if x:] on an optional int: the value when it is truthy. *)
Definition int_truthy (x : option Z) : option Z :=
  match x with
  | Some z => if (z =? 0)%Z then None else Some z
  | None => None
  end.

Definition str_or (x : option string) (d : string) : string :=
  match x with
  | Some s => if bool_decide (s = "") then d else s
  | None => d
  end.

(* ===================================================================== *)
(** ** Exceptions *)
(* ===================================================================== *)

Inductive type_error :=
| UnexpectedKeyword (k : string)
| MultipleValues (k : string)
| TooManyPositional
| MissingRequired (ks : list string)
| Unhashable.

Inductive exn :=
| TypeError (t : type_error)
| Exception (msg : string).

Inductive result (A : Type) :=
| Ok (a : A)
| Raise (e : exn).
Arguments Ok {A} a.
Arguments Raise {A} e.

Definition is_TypeError {A} (r : result A) : Prop :=
  match r with Raise (TypeError _) => True | _ => False end.

(* ===================================================================== *)
(** ** Calling a function: binding arguments to parameters *)
(* ===================================================================== *)

Record param := Param { p_name : string; p_default : option pyval }.

(** A keyword dictionary keeps the order in which the keywords were given. *)
Abbreviation kwargs := (list (string * pyval)).

Fixpoint kw_lookup (k : string) (kw : kwargs) : option pyval :=
  match kw with
  | [] => None
  | (k', v) :: kw' => if bool_decide (k' = k) then Some v else kw_lookup k kw'
  end.

(** [f(k1=v1, ..., **extra)]: a key given twice is a TypeError at the call
    site. *)
Fixpoint call_keywords (explicit extra : kwargs) : result kwargs :=
  match extra with
  | [] => Ok explicit
  | (k, v) :: extra' =>
      if bool_decide (k ∈ fst <$> explicit) then Raise (TypeError (MultipleValues k))
      else call_keywords (explicit ++ [(k, v)]) extra'
  end.

Fixpoint bind_positional (sig : list param) (pos : list pyval)
    (env : gmap string pyval) : gmap string pyval :=
  match sig, pos with
  | p :: sig', v :: pos' => bind_positional sig' pos' (<[p_name p := v]> env)
  | _, _ => env
  end.

Fixpoint bind_keywords (sig : list param) (kw : kwargs)
    (env : gmap string pyval) : result (gmap string pyval) :=
  match kw with
  | [] => Ok env
  | (k, v) :: kw' =>
      if negb (bool_decide (k ∈ p_name <$> sig))
      then Raise (TypeError (UnexpectedKeyword k))
      else if bool_decide (is_Some (env !! k))
      then Raise (TypeError (MultipleValues k))
      else bind_keywords sig kw' (<[k := v]> env)
  end.

Definition missing_required (sig : list param) (env : gmap string pyval)
    : list string :=
  p_name <$>
    filter (λ p, env !! p_name p = None ∧ p_default p = None) sig.

Fixpoint fill_defaults (sig : list param) (env : gmap string pyval)
    : gmap string pyval :=
  match sig with
  | [] => env
  | p :: sig' =>
      match env !! p_name p, p_default p with
      | None, Some d => fill_defaults sig' (<[p_name p := d]> env)
      | _, _ => fill_defaults sig' env
      end
  end.

(** The order of the checks is the interpreter's: keywords first (unknown
    name, then a parameter given twice), then the count of positional
    arguments, then the required parameters left without a value. *)
Definition bind_arguments (sig : list param) (pos : list pyval) (kw : kwargs)
    : result (gmap string pyval) :=
  match bind_keywords sig kw (bind_positional sig pos ∅) with
  | Raise e => Raise e
  | Ok env =>
      if bool_decide (length sig < length pos)%nat
      then Raise (TypeError TooManyPositional)
      else match missing_required sig env with
           | [] => Ok (fill_defaults sig env)
           | ks => Raise (TypeError (MissingRequired ks))
           end
  end.

(* ===================================================================== *)
(** ** The instance, the base class and the monad *)
(* ===================================================================== *)

(** Calls that reach the base class, in the order they are made. *)
Inductive event :=
| BaseInit (kw : kwargs)
| BaseSubmit (kw : kwargs).

(** [attrs] is [self.__dict__]. *)
Record world := World { attrs : gmap string pyval; calls : list event }.

Definition M (A : Type) : Type := world → result A * world.

#[global] Instance M_ret : MRet M := λ A a w, (Ok a, w).

#[global] Instance M_bind : MBind M := λ A B k m w,
  match m w with
  | (Ok a, w') => k a w'
  | (Raise e, w') => (Raise e, w')
  end.

Definition raise {A} (e : exn) : M A := λ w, (Raise e, w).

Definition lift {A} (r : result A) : M A := λ w, (r, w).

(** [self.k = v] *)
Definition setattr (k : string) (v : pyval) : M unit :=
  λ w, (Ok (), World (<[k := v]> (attrs w)) (calls w)).

(** janis_assistant.templates.slurm.SlurmSingularityTemplate: the
    constructor works on the instance dictionary, the submission does not
    return a value. Both may raise. *)
Class SlurmSingularityTemplate := {
  base___init__ : kwargs → gmap string pyval → result (gmap string pyval);
  base_submit_detatched_resume : kwargs → gmap string pyval → result unit
}.

(** A runtime and a base class to run the definitions on. *)
Definition runtime0 : PythonRuntime :=
  {| list_repr := λ l, "[" +:+ join ", " l +:+ "]";
     object_repr := λ _, "<JanisConfiguration>";
     set_iter := λ l, l;
     set_iter_perm := λ l, reflexivity l |}.

Definition base0 : SlurmSingularityTemplate :=
  {| base___init__ := λ kw a, Ok (list_to_map kw ∪ a);
     base_submit_detatched_resume := λ _ _, Ok () |}.

Definition world0 : world := World ∅ [].

(** janis_assistant's [TaskStatus] enum, through the three methods used. *)
Class TaskStatusOps (TaskStatus : Type) := {
  is_in_final_state : TaskStatus → bool;
  to_hexcolor : TaskStatus → string;
  status_str : TaskStatus → string
}.

(** A status type with one final state, to run the renderer on. *)
Inductive status0 := Running0 | Completed0.

Definition status0_ops : TaskStatusOps status0 :=
  {| is_in_final_state := λ s, match s with Completed0 => true | Running0 => false end;
     to_hexcolor := λ s, match s with Completed0 => "#5cb85c" | Running0 => "#337ab7" end;
     status_str := λ s, match s with Completed0 => "completed" | Running0 => "running" end |}.

Section Templates.
Context `{runtime : !PythonRuntime} `{base : !SlurmSingularityTemplate}.

(** [super().__init__] and [super().submit_detatched_resume] with the
    keywords [kw], where the superclass is the external base class. *)
Definition super___init__ (kw : kwargs) : M unit := λ w,
  let log := calls w ++ [BaseInit kw] in
  match base___init__ kw (attrs w) with
  | Ok a => (Ok (), World a log)
  | Raise e => (Raise e, World (attrs w) log)
  end.

Definition super_submit_detatched_resume (kw : kwargs) : M unit := λ w,
  (base_submit_detatched_resume kw (attrs w),
   World (attrs w) (calls w ++ [BaseSubmit kw])).

(* ===================================================================== *)
(** ** pawsey.py: the constructors *)
(* ===================================================================== *)

Definition PawseyTemplate_params : list param :=
  [ Param "containerDir" None;
    Param "executionDir" (Some VNone);
    Param "queues" (Some (VStr "workq"));
    Param "singularityVersion" (Some (VStr "3.3.0"));
    Param "catchSlurmErrors" (Some (VBool true));
    Param "sendSlurmEmails" (Some (VBool true));
    Param "singularityBuildInstructions"
      (Some (VStr "singularity pull $image docker://${docker}"));
    Param "max_cores" (Some (VInt 28));
    Param "max_ram" (Some (VInt 128)) ].

(** The keywords [PawseyTemplate.__init__] hands to the base class. *)
Definition PawseyTemplate_forwarded (env : gmap string pyval) : kwargs :=
  let singload := "module load singularity" in
  let singload :=
    if truthy (env !!! "singularityVersion")
    then singload +:+ "/" +:+ py_str (env !!! "singularityVersion")
    else singload in
  [ ("executionDir", env !!! "executionDir");
    ("queues", env !!! "queues");
    ("containerDir", env !!! "containerDir");
    ("catchSlurmErrors", env !!! "catchSlurmErrors");
    ("sendSlurmEmails", env !!! "sendSlurmEmails");
    ("buildInstructions", env !!! "singularityBuildInstructions");
    ("singularityLoadInstructions", VStr singload);
    ("max_cores", env !!! "max_cores");
    ("max_ram", env !!! "max_ram") ].

Definition PawseyTemplate___init__ (pos : list pyval) (kw : kwargs) : M unit :=
  env ← lift (bind_arguments PawseyTemplate_params pos kw);
  super___init__ (PawseyTemplate_forwarded env).

Definition PawseyDisconnectedTemplate_params : list param :=
  [ Param "executionDir" None;
    Param "containerDir" None;
    Param "queues" (Some (VStr "workq"));
    Param "submissionQueue" (Some (VStr "longq"));
    Param "singularityVersion" (Some (VStr "3.3.0"));
    Param "catchSlurmErrors" (Some (VBool true));
    Param "sendSlurmEmails" (Some (VBool true));
    Param "singularityBuildInstructions"
      (Some (VStr "singularity pull $image docker://${docker}"));
    Param "max_cores" (Some (VInt 28));
    Param "max_ram" (Some (VInt 128)) ].

Definition PawseyDisconnectedTemplate___init__ (pos : list pyval) (kw : kwargs)
    : M unit :=
  env ← lift (bind_arguments PawseyDisconnectedTemplate_params pos kw);
  setattr "submission_queue" (env !!! "submissionQueue");;
  PawseyTemplate___init__ [] [ ("executionDir", env !!! "executionDir") ].

(* ===================================================================== *)
(** ** petermac.py and petermacdisconnected.py: the constructors *)
(* ===================================================================== *)

Definition PeterMacTemplate_params : list param :=
  [ Param "intermediate_execution_dir" (Some VNone);
    Param "container_dir"
      (Some (VStr "/config/binaries/singularity/containers_devel/janis/"));
    Param "queues" (Some (VStr "prod_med,prod"));
    Param "singularity_version" (Some (VStr "3.4.0"));
    Param "send_job_emails" (Some (VBool false));
    Param "catch_slurm_errors" (Some (VBool true));
    Param "singularity_build_instructions" (Some VNone);
    Param "max_cores" (Some (VInt 40));
    Param "max_ram" (Some (VInt 256));
    Param "max_workflow_time" (Some (VInt 20100));
    Param "janis_memory_mb" (Some VNone);
    Param "email_format" (Some VNone) ].

(** The class attribute [expected_email_format = {None, "molpath"}]. *)
Definition expected_email_format : list pyval := [ VNone; VStr "molpath" ].

(** [v not in s] for a set [s]: a list cannot be hashed. *)
Definition not_in_set (v : pyval) (s : list pyval) : result bool :=
  match v with
  | VList _ => Raise (TypeError Unhashable)
  | _ => Ok (negb (bool_decide (v ∈ s)))
  end.

Definition PeterMacTemplate_singload (env : gmap string pyval) : string :=
  let singload := "module load singularity" in
  if truthy (env !!! "singularity_version")
  then singload +:+ "/" +:+ py_str (env !!! "singularity_version")
  else singload.

Definition PeterMacTemplate_joined_queued (env : gmap string pyval) : string :=
  match env !!! "queues" with
  | VList l => join "," l
  | v => py_str v
  end.

Definition PeterMacTemplate_build_instructions (env : gmap string pyval)
    : pyval :=
  if negb (truthy (env !!! "singularity_build_instructions"))
  then VStr ("sbatch -p " +:+ PeterMacTemplate_joined_queued env +:+ " --wait "
    +:+ "    --wrap 'unset SINGULARITY_TMPDIR && docker_subbed=$(sed -e 's/[^A-Za-z0-9._-]/_/g' <<< ${docker}) "
    +:+ "    && image=" +:+ py_str (env !!! "container_dir")
    +:+ "/$docker_subbed.sif && singularity pull $image docker://${docker}'")
  else env !!! "singularity_build_instructions".

Definition invalid_choice_message (email_format : pyval) : string :=
  let valid_options_formatted :=
    join ", " ((λ o, "'" +:+ py_str o +:+ "'") <$> set_iter expected_email_format) in
  "Argument email_format: invalid choice: '" +:+ py_str email_format
    +:+ "' (choose from " +:+ valid_options_formatted +:+ ")".

Definition PeterMacTemplate_forwarded (env : gmap string pyval) : kwargs :=
  [ ("mail_program", VStr "sendmail -t");
    ("intermediate_execution_dir", env !!! "intermediate_execution_dir");
    ("container_dir", env !!! "container_dir");
    ("queues", VStr (PeterMacTemplate_joined_queued env));
    ("send_job_emails", env !!! "send_job_emails");
    ("catch_slurm_errors", env !!! "catch_slurm_errors");
    ("build_instructions", PeterMacTemplate_build_instructions env);
    ("singularity_load_instructions", VStr (PeterMacTemplate_singload env));
    ("max_cores", env !!! "max_cores");
    ("max_ram", env !!! "max_ram");
    ("can_run_in_foreground", VBool false);
    ("run_in_background", VBool true) ].

Definition PeterMacTemplate___init__ (pos : list pyval) (kw : kwargs) : M unit :=
  env ← lift (bind_arguments PeterMacTemplate_params pos kw);
  setattr "max_workflow_time" (env !!! "max_workflow_time");;
  setattr "janis_memory_mb" (env !!! "janis_memory_mb");;
  invalid ← lift (not_in_set (env !!! "email_format") expected_email_format);
  (if (invalid : bool)
   then raise (Exception (invalid_choice_message (env !!! "email_format")))
   else mret ());;
  setattr "email_format" (env !!! "email_format");;
  super___init__ (PeterMacTemplate_forwarded env).

Definition PeterMacDisconnectedTemplate_params : list param :=
  [ Param "executionDir" (Some VNone);
    Param "queues" (Some (VStr "prod_med,prod"));
    Param "containerDir"
      (Some (VStr "/config/binaries/singularity/containers_devel/janis/"));
    Param "singularityVersion" (Some (VStr "3.4.0"));
    Param "catchSlurmErrors" (Some (VBool true));
    Param "sendSlurmEmails" (Some (VBool false));
    Param "max_workflow_time" (Some (VInt 14400)) ].

Definition PeterMacDisconnectedTemplate___init__ (pos : list pyval)
    (kw : kwargs) : M unit :=
  env ← lift (bind_arguments PeterMacDisconnectedTemplate_params pos kw);
  let buildinstructions :=
    "unset SINGULARITY_TMPDIR && docker_subbed=$(sed -e 's/[^A-Za-z0-9._-]/_/g' <<< ${docker}) "
    +:+ "&& image=" +:+ py_str (env !!! "containerDir")
    +:+ "/$docker_subbed.sif && singularity pull $image docker://${docker}" in
  PeterMacTemplate___init__ []
    [ ("executionDir", env !!! "executionDir");
      ("queues", env !!! "queues");
      ("containerDir", env !!! "containerDir");
      ("singularityVersion", env !!! "singularityVersion");
      ("catchSlurmErrors", env !!! "catchSlurmErrors");
      ("sendSlurmEmails", env !!! "sendSlurmEmails");
      ("singularityBuildInstructions", VStr buildinstructions) ];;
  setattr "max_workflow_time" (env !!! "max_workflow_time").

(* ===================================================================== *)
(** ** [submit_detatched_resume] *)
(* ===================================================================== *)

(** The attributes of [self] that some [submit_detatched_resume] reads:
    [queues] and [send_job_emails] are set by the base class,
    [submission_queue] by [PawseyDisconnectedTemplate], the last two by
    [PeterMacTemplate]. A method ignores the fields its class does not
    have. *)
Record template_self := {
  queues : str_or_list;
  submission_queue : option string;
  send_job_emails : bool;
  max_workflow_time : option Z;
  janis_memory_mb : option Z
}.

(** [sep.join(x) if isinstance(x, list) else x] *)
Definition joined (sep : string) (x : str_or_list) : string :=
  match x with
  | StrList l => join sep l
  | OneStr s => s
  end.

(** [config and config.notifications and config.notifications.email]:
    the address when every link of the chain is truthy. *)
Definition notification_email (config : option JanisConfiguration)
    : option string :=
  c ← config;
  n ← notifications c;
  e ← email n;
  if bool_decide (e = "") then None else Some e.

Definition val_of_config (config : option JanisConfiguration) : pyval :=
  match config with Some c => VConfig c | None => VNone end.

Definition PeterMacTemplate_newcommand (self : template_self)
    (wid : string) (command : str_or_list) (logsdir : string)
    (config : option JanisConfiguration) : list string :=
  let q := OneStr "janis" in
  let jq := joined ", " q in
  let jc := joined " " command in
  let newcommand :=
    [ "sbatch";
      "-p";
      jq;
      "-J";
      "janis-" +:+ wid;
      "--time";
      str_int (int_or (max_workflow_time self) 14400);
      "-o";
      os_path_join logsdir "slurm.stdout";
      "-e";
      os_path_join logsdir "slurm.stderr" ] in
  let newcommand :=
    match (if send_job_emails self then notification_email config else None) with
    | Some e => newcommand ++ [ "--mail-user"; e; "--mail-type"; "END" ]
    | None => newcommand
    end in
  let newcommand :=
    match int_truthy (janis_memory_mb self) with
    | Some mb => newcommand ++ [ "--mem"; str_int mb ]
    | None => newcommand
    end in
  newcommand ++ [ "--wrap"; jc ].

(** The tokens [PeterMacTemplate] puts between the fixed head of the
    vector and --wrap: the mail block, then the memory block. *)
Definition PeterMacTemplate_optional (self : template_self)
    (config : option JanisConfiguration) : list string :=
  match (if send_job_emails self then notification_email config else None) with
  | Some e => [ "--mail-user"; e; "--mail-type"; "END" ]
  | None => []
  end ++
  match int_truthy (janis_memory_mb self) with
  | Some mb => [ "--mem"; str_int mb ]
  | None => []
  end.

Definition PeterMacTemplate_submit_detatched_resume
    (self : template_self) (wid : string) (command : str_or_list)
    (logsdir : string) (config : option JanisConfiguration) (kw : kwargs)
    : M unit :=
  let newcommand := PeterMacTemplate_newcommand self wid command logsdir config in
  kw' ← lift (call_keywords
                [ ("wid", VStr wid);
                  ("command", VList newcommand);
                  ("capture_output", VBool true);
                  ("config", val_of_config config);
                  ("logsdir", VStr logsdir) ] kw);
  super_submit_detatched_resume kw'.

(** The class attribute [PawseyTemplate.SUBMISSION_LENGTH]. *)
Definition SUBMISSION_LENGTH : string := "4-00:00:00".

Definition PawseyDisconnectedTemplate_newcommand
    (self : template_self)
    (wid : string) (command : str_or_list) (logsdir : string) : list string :=
  let q := queues self in
  let jq := joined ", " q in
  let jc := joined " " command in
  [ "sbatch";
    "-p";
    str_or (submission_queue self) jq;
    "-J";
    "janis-" +:+ wid;
    "--time";
    SUBMISSION_LENGTH;
    "-o"; os_path_join logsdir "slurm.stdout";
    "-e"; os_path_join logsdir "slurm.stderr";
    "--wrap";
    jc ].

(** The last statement is [super().__init__(wid=..., command=...,
    capture_output=True, ...)]: the superclass is [PawseyTemplate]. *)
Definition PawseyDisconnectedTemplate_submit_detatched_resume
    (self : template_self)
    (wid : string) (command : str_or_list) (logsdir : string) (kw : kwargs)
    : M unit :=
  let newcommand := PawseyDisconnectedTemplate_newcommand self wid command logsdir in
  kw' ← lift (call_keywords
                [ ("wid", VStr wid);
                  ("command", VList newcommand);
                  ("capture_output", VBool true) ] kw);
  PawseyTemplate___init__ [] kw'.

Definition PeterMacDisconnectedTemplate_newcommand
    (self : template_self)
    (wid : string) (command : str_or_list) (logsdir : string) : list string :=
  let q := OneStr "janis" in
  let jq := joined ", " q in
  let jc := joined " " command in
  [ "sbatch";
    "-p";
    jq;
    "-J";
    "janis-" +:+ wid;
    "--time";
    str_int (int_or (max_workflow_time self) 1440);
    "-o"; os_path_join logsdir "slurm.stdout";
    "-e"; os_path_join logsdir "slurm.stderr";
    "--wrap";
    jc ].

(** Here the superclass is [PeterMacTemplate]. *)
Definition PeterMacDisconnectedTemplate_submit_detatched_resume
    (self : template_self)
    (wid : string) (command : str_or_list) (logsdir : string) (kw : kwargs)
    : M unit :=
  let newcommand := PeterMacDisconnectedTemplate_newcommand self wid command logsdir in
  kw' ← lift (call_keywords
                [ ("wid", VStr wid);
                  ("command", VList newcommand);
                  ("capture_output", VBool true) ] kw);
  PeterMacTemplate___init__ [] kw'.

(* ===================================================================== *)
(** ** The status email: [table_style_gen], [prepare_run_status_table] *)
(* ===================================================================== *)

Context {TaskStatus : Type} `{ops : !TaskStatusOps TaskStatus}.

(** janis_assistant's [RunModel], as far as it is read. *)
Record RunInput := { tag : string; value : pyval }.
Record RunJob := { name : string; status : TaskStatus }.
Record RunModel := { inputs : list RunInput; jobs : list RunJob }.

(** A keyword dictionary of strings, in insertion order; [d[k] = v] keeps
    the place of a key that is already there. *)
Fixpoint dict_set (k v : string) (d : list (string * string))
    : list (string * string) :=
  match d with
  | [] => [ (k, v) ]
  | (k', v') :: d' =>
      if bool_decide (k' = k) then (k, v) :: d' else (k', v') :: dict_set k v d'
  end.

Definition dict_update (d u : list (string * string)) : list (string * string) :=
  foldl (λ d e, dict_set (fst e) (snd e) d) d u.

Definition table_style_gen (kw : list (string * string)) : string :=
  let kw := dict_update kw [ ("border", "1px solid black"); ("padding", "8px") ] in
  let elsjoined := join " " ((λ e, fst e +:+ ": " +:+ snd e +:+ ";") <$> kw) in
  "style=" +:+ dquote +:+ elsjoined +:+ dquote.

Fixpoint spaces (n : nat) : string :=
  match n with
  | O => ""
  | S n' => String " "%char (spaces n')
  end.

Definition job_row (job : RunJob) : string :=
  join nl
    [ "<tr>";
      spaces 20 +:+ "<td " +:+ table_style_gen [ ("color", to_hexcolor (status job)) ]
        +:+ dquote +:+ ">" +:+ name job +:+ "</td>";
      spaces 20 +:+ "<td " +:+ table_style_gen [ ("color", to_hexcolor (status job)) ]
        +:+ ">" +:+ status_str (status job) +:+ "</td>";
      spaces 16 +:+ "</tr>" ].

Definition seqrun_row (st : TaskStatus) (s : pyval) : string :=
  join nl
    [ "<tr>";
      spaces 20 +:+ "<td " +:+ table_style_gen [] +:+ dquote +:+ ">"
        +:+ py_str s +:+ "</td>";
      spaces 20 +:+ "<td " +:+ table_style_gen [] +:+ ">"
        +:+ status_str st +:+ "</td>";
      spaces 16 +:+ "</tr>" ].

(** The two table literals differ in the first column's title, and the
    first one starts on a new line. *)
Definition table (title borderstyle rows : string) : string :=
  join nl
    [ "<table style=" +:+ dquote +:+ "border-collapse: collapse; border: 1px solid black"
        +:+ dquote +:+ ">";
      spaces 20 +:+ "<thead>";
      spaces 24 +:+ "<tr>";
      spaces 28 +:+ "<th " +:+ borderstyle +:+ ">" +:+ title +:+ "</th>";
      spaces 28 +:+ "<th " +:+ borderstyle +:+ ">Janis</th>";
      spaces 24 +:+ "</tr>";
      spaces 20 +:+ "</thead>";
      spaces 20 +:+ "<tbody>";
      spaces 20 +:+ rows;
      spaces 20 +:+ "</tbody>";
      spaces 16 +:+ "</table>" ].

(** [{i.tag: i.value for i in inputs}], built on [d]: a later entry
    replaces an earlier one with the same tag. *)
Definition dict_of_inputs (d : gmap string pyval) (inputs : list RunInput)
    : gmap string pyval :=
  foldl (λ d i, <[tag i := value i]> d) d inputs.

Definition prepare_run_status_table (st : TaskStatus) (run : RunModel) : string :=
  let inputs := dict_of_inputs ∅ (inputs run) in
  let components : list string := [] in
  let skip_stepids : list string := [] in
  let borderstyle := table_style_gen [] in
  let components :=
    if is_in_final_state st
    then
      let rows :=
        join nl (job_row <$> filter (λ job, name job ∉ skip_stepids) (jobs run)) in
      components ++ [ nl +:+ spaces 16 +:+ table "#Sample" borderstyle rows ]
    else components in
  let components :=
    if bool_decide (is_Some (inputs !! "seqrun"))
    then
      let seqrun := inputs !!! "seqrun" in
      let iterseqrun :=
        match seqrun with
        | VList l => VStr <$> l
        | _ => [ seqrun ]
        end in
      let rows := join nl (seqrun_row st <$> iterseqrun) in
      components ++ [ table "#Run" borderstyle rows ]
    else components in
  let components :=
    if bool_decide (0 < length components)%nat
    then "<h3>Run status</h3>" :: components
    else components in
  join nl components.


(* ===================================================================== *)
(** ** petermac.py: [post_configuration_hook] and the molpath email *)
(* ===================================================================== *)

(** The configuration handed to [post_configuration_hook]:
    [configuration.cromwell.call_caching_method] is read and written, the
    other settings are carried along. *)
Record JanisConfigurationCromwell := {
  call_caching_method : option string;
  cromwell_settings : kwargs
}.
Record HookConfiguration := {
  cromwell : JanisConfigurationCromwell;
  general : JanisConfiguration
}.

(** janis_assistant's [SubmissionModel], as far as it is read:
    [metadata.format(monochrome, brief)] is the method of the object. *)
Record NamedRun := { run_name : string; run_model : RunModel }.
Record SubmissionModel := {
  id_ : string;
  runs : list NamedRun;
  execution_dir : string;
  output_dir : string;
  format : bool → bool → string
}.

(** The two methods of the base class that [PeterMacTemplate] overrides
    and calls through [super()]: the hook works on the configuration
    object in place, the renderer returns the body of the email. *)
Context (base_post_configuration_hook : HookConfiguration → result HookConfiguration).
Context (base_prepare_status_update_email : TaskStatus → SubmissionModel → string).

Definition post_configuration_hook (configuration : HookConfiguration)
    : result HookConfiguration :=
  match base_post_configuration_hook configuration with
  | Raise e => Raise e
  | Ok configuration =>
      if negb (truthy (val_of_opt_str (call_caching_method (cromwell configuration))))
      then Ok {| cromwell :=
                   {| call_caching_method := Some "fingerprint";
                      cromwell_settings := cromwell_settings (cromwell configuration) |};
                 general := general configuration |}
      else Ok configuration
  end.

(** [", ".join(set(r.name for r in metadata.runs))]: the distinct names,
    in the order the set is iterated. *)
Definition joined_run_names (metadata : SubmissionModel) : string :=
  join ", " (py_str <$> set_iter (VStr <$> remove_dups (run_name <$> runs metadata))).

(** The field [{status}] of the template renders the status as [str]
    does. [run_status] stays the empty string. *)
Definition prepare_molpath_status_update_email (st : TaskStatus)
    (metadata : SubmissionModel) : string :=
  let progress_and_header := "" in
  let run_status := "" in
  let progress_and_header :=
    if is_in_final_state st
    then join nl
           [ spaces 16 +:+ "<h2>Progress</h3>" +:+ spaces 8;
             spaces 16 +:+ "<pre>";
             spaces 16 +:+ format metadata true true;
             spaces 16 +:+ "</pre>" ]
    else progress_and_header in
  join nl
    [ "<h1>Status change: " +:+ status_str st +:+ "</h1>";
      "";
      "<p>";
      "    The workflow '" +:+ joined_run_names metadata +:+ "' (" +:+ id_ metadata
        +:+ ") moved to the '" +:+ status_str st +:+ "' status.";
      "</p>";
      "<ul>";
      "    <li>Task directory: <code>" +:+ output_dir metadata +:+ "</code></li>";
      "    <li>Execution directory: <code>" +:+ execution_dir metadata +:+ "</code></li>";
      "</ul>";
      "";
      run_status;
      "";
      progress_and_header;
      "";
      "<br /><br />";
      "Kind regards,";
      "- Janis";
      spaces 8 ].

(** [self.email_format == "molpath"] chooses the renderer. *)
Definition prepare_status_update_email (email_format : option string)
    (st : TaskStatus) (metadata : SubmissionModel) : string :=
  if bool_decide (email_format = Some "molpath")
  then prepare_molpath_status_update_email st metadata
  else base_prepare_status_update_email st metadata.

(** [d.get(k)] on a dictionary of strings. *)
Fixpoint dict_get (k : string) (d : list (string * string)) : option string :=
  match d with
  | [] => None
  | (k', v) :: d' => if bool_decide (k' = k) then Some v else dict_get k d'
  end.

(* ===================================================================== *)
(** ** Lemmas on strings and blocks of tokens *)
(* ===================================================================== *)

Lemma contains_block_cons b x l :
  contains_block b (x :: l) = bool_decide (b `prefix_of` x :: l) || contains_block b l.
Proof. reflexivity. Qed.

Lemma contains_block_spec b l :
  contains_block b l = true ↔ ∃ l1 l2, l = l1 ++ b ++ l2.
Proof.
  induction l as [|x l IH].
  - simpl. rewrite orb_false_r, bool_decide_eq_true. split.
    + intros [k Hk]. by exists [], k.
    + intros (l1 & l2 & Heq). destruct l1; [|done]. by exists l2.
  - rewrite contains_block_cons, orb_true_iff, bool_decide_eq_true, IH. split.
    + intros [[k Hk] | (l1 & l2 & Heq)].
      * by exists [], k.
      * exists (x :: l1), l2. by rewrite Heq.
    + intros (l1 & l2 & Heq). destruct l1 as [|y l1]; simpl in Heq.
      * left. by exists l2.
      * right. exists l1, l2. by simplify_eq.
Qed.

Lemma uint_first_digit (d : Decimal.uint) :
  starts_like_int (NilZero.string_of_uint d) = true
  ∧ ∃ c s, NilZero.string_of_uint d = String c s ∧ is_digit c = true.
Proof.
  destruct d as [|d|d|d|d|d|d|d|d|d|d]; simpl;
    try (destruct (NilEmpty.string_of_uint d)); split; eauto.
Qed.

Lemma starts_like_int_str_int z : starts_like_int (str_int z) = true.
Proof.
  unfold str_int. destruct (Z.to_int z) as [d|d]; simpl.
  - apply uint_first_digit.
  - destruct (uint_first_digit d) as [_ (c & s & -> & Hc)].
    rewrite Hc. by destruct (is_digit "-").
Qed.

Lemma str_int_inj a b : str_int a = str_int b → a = b.
Proof.
  unfold str_int. intros Heq. apply DecimalZ.to_int_inj.
  assert (Hnn : ∀ z, Z.to_int z ≠ Decimal.Pos Decimal.Nil
                     ∧ Z.to_int z ≠ Decimal.Neg Decimal.Nil).
  { intros [|p|p]; simpl; split; try done;
      intros [= Hp]; by apply DecimalPos.Unsigned.to_uint_nonnil in Hp. }
  apply (f_equal NilZero.int_of_string) in Heq.
  rewrite !NilZero.isi in Heq by apply Hnn. by simplify_eq.
Qed.


(* ===================================================================== *)
(** ** The argument vector *)
(* ===================================================================== *)

(** The vector of the claim's example, on each of the three classes. *)
Example newcommand_abc123 :
  let self :=
    {| queues := StrList [ "workq"; "debugq" ]; submission_queue := None;
       send_job_emails := false; max_workflow_time := Some 20100;
       janis_memory_mb := None |} in
  PeterMacTemplate_newcommand self "abc123" (StrList [ "run.sh"; "--flag" ]) "/logs" None
  = [ "sbatch"; "-p"; "janis"; "-J"; "janis-abc123"; "--time"; "20100";
      "-o"; "/logs/slurm.stdout"; "-e"; "/logs/slurm.stderr";
      "--wrap"; "run.sh --flag" ]
  ∧ PawseyDisconnectedTemplate_newcommand self "abc123" (StrList [ "run.sh"; "--flag" ]) "/logs"
  = [ "sbatch"; "-p"; "workq, debugq"; "-J"; "janis-abc123"; "--time"; "4-00:00:00";
      "-o"; "/logs/slurm.stdout"; "-e"; "/logs/slurm.stderr";
      "--wrap"; "run.sh --flag" ]
  ∧ PeterMacDisconnectedTemplate_newcommand self "abc123" (StrList [ "run.sh"; "--flag" ]) "/logs"
  = [ "sbatch"; "-p"; "janis"; "-J"; "janis-abc123"; "--time"; "20100";
      "-o"; "/logs/slurm.stdout"; "-e"; "/logs/slurm.stderr";
      "--wrap"; "run.sh --flag" ].
Proof. by vm_compute. Qed.

Lemma PeterMacTemplate_newcommand_eq self wid command logsdir config :
  PeterMacTemplate_newcommand self wid command logsdir config
  = [ "sbatch"; "-p"; "janis"; "-J"; "janis-" +:+ wid; "--time";
      str_int (int_or (max_workflow_time self) 14400);
      "-o"; os_path_join logsdir "slurm.stdout";
      "-e"; os_path_join logsdir "slurm.stderr" ]
    ++ PeterMacTemplate_optional self config
    ++ [ "--wrap"; joined " " command ].
Proof.
  unfold PeterMacTemplate_newcommand, PeterMacTemplate_optional.
  destruct (if send_job_emails self then _ else _),
    (int_truthy (janis_memory_mb self)); reflexivity.
Qed.

(** C1. For every wid, every command given as a list of tokens and every
    logsdir, the vector built by each of the three [submit_detatched_resume]
    methods is: sbatch, -p, the resolved queue, -J, "janis-" followed by
    wid, --time, the duration, -o, logsdir joined with slurm.stdout, -e,
    logsdir joined with slurm.stderr, then (PeterMacTemplate only) the
    optional tokens, and last --wrap and the command tokens joined with
    single spaces. *)
Theorem submit_detatched_resume_argument_vector
    (self : template_self) (wid : string) (command : list string)
    (logsdir : string) (config : option JanisConfiguration) :
  (∃ optional,
      PeterMacTemplate_newcommand self wid (StrList command) logsdir config
      = [ "sbatch"; "-p"; "janis"; "-J"; "janis-" +:+ wid;
          "--time"; str_int (int_or (max_workflow_time self) 14400);
          "-o"; os_path_join logsdir "slurm.stdout";
          "-e"; os_path_join logsdir "slurm.stderr" ]
        ++ optional ++ [ "--wrap"; join " " command ])
  ∧ PawseyDisconnectedTemplate_newcommand self wid (StrList command) logsdir
    = [ "sbatch"; "-p"; str_or (submission_queue self) (joined ", " (queues self));
        "-J"; "janis-" +:+ wid;
        "--time"; "4-00:00:00";
        "-o"; os_path_join logsdir "slurm.stdout";
        "-e"; os_path_join logsdir "slurm.stderr";
        "--wrap"; join " " command ]
  ∧ PeterMacDisconnectedTemplate_newcommand self wid (StrList command) logsdir
    = [ "sbatch"; "-p"; "janis"; "-J"; "janis-" +:+ wid;
        "--time"; str_int (int_or (max_workflow_time self) 1440);
        "-o"; os_path_join logsdir "slurm.stdout";
        "-e"; os_path_join logsdir "slurm.stderr";
        "--wrap"; join " " command ].
Proof.
  split; [|split; reflexivity].
  exists (PeterMacTemplate_optional self config).
  apply PeterMacTemplate_newcommand_eq.
Qed.

(** C10. In the vectors of [PeterMacTemplate] and of
    [PeterMacDisconnectedTemplate] the token after -p is the literal
    "janis", whatever queues the instance holds and whatever override. *)
Theorem petermac_partition_is_janis
    (self : template_self) (wid : string) (command : str_or_list)
    (logsdir : string) (config : option JanisConfiguration) :
  PeterMacTemplate_newcommand self wid command logsdir config !! 1%nat = Some "-p"
  ∧ PeterMacTemplate_newcommand self wid command logsdir config !! 2%nat = Some "janis"
  ∧ PeterMacDisconnectedTemplate_newcommand self wid command logsdir !! 1%nat = Some "-p"
  ∧ PeterMacDisconnectedTemplate_newcommand self wid command logsdir !! 2%nat = Some "janis".
Proof.
  rewrite PeterMacTemplate_newcommand_eq. repeat split; reflexivity.
Qed.


(* ===================================================================== *)
(** ** Calls and constructors *)
(* ===================================================================== *)

Lemma call_keywords_Ok explicit extra kw :
  call_keywords explicit extra = Ok kw → kw = explicit ++ extra.
Proof.
  revert explicit. induction extra as [|[k v] extra IH]; intros explicit; simpl.
  - intros [= <-]. by rewrite app_nil_r.
  - case_bool_decide; [done|]. intros ->%IH. by rewrite <- app_assoc.
Qed.

Lemma call_keywords_Raise explicit extra e :
  call_keywords explicit extra = Raise e → ∃ k, e = TypeError (MultipleValues k).
Proof.
  revert explicit. induction extra as [|[k v] extra IH]; intros explicit; simpl.
  - done.
  - case_bool_decide; [intros [= <-]; eauto | apply IH].
Qed.

Lemma call_keywords_fresh explicit extra :
  NoDup (fst <$> explicit ++ extra) → call_keywords explicit extra = Ok (explicit ++ extra).
Proof.
  revert explicit. induction extra as [|[k v] extra IH]; intros explicit; simpl.
  - by rewrite app_nil_r.
  - intros Hnd. rewrite bool_decide_eq_false_2.
    + rewrite IH; rewrite <- app_assoc; done.
    + rewrite fmap_app, NoDup_app in Hnd. destruct Hnd as (_ & Hd & _).
      intros Hk. apply (Hd k Hk). simpl. left.
Qed.

(** A keyword list that starts with a name the signature does not have is
    refused with that name, whatever follows. *)
Lemma bind_arguments_unexpected sig k v kw :
  k ∉ p_name <$> sig →
  bind_arguments sig [] ((k, v) :: kw) = Raise (TypeError (UnexpectedKeyword k)).
Proof.
  intros Hk. unfold bind_arguments.
  assert (bind_positional sig [] ∅ = ∅) as -> by by destruct sig.
  simpl. by rewrite bool_decide_eq_false_2.
Qed.

Lemma PawseyTemplate_needs_containerDir (v : pyval) :
  bind_arguments PawseyTemplate_params [] [ ("executionDir", v) ]
  = Raise (TypeError (MissingRequired [ "containerDir" ])).
Proof. by vm_compute. Qed.

Lemma PeterMacTemplate_has_no_wid : "wid" ∉ p_name <$> PeterMacTemplate_params.
Proof. by apply (bool_decide_unpack _). Qed.

Lemma PawseyTemplate_has_no_wid : "wid" ∉ p_name <$> PawseyTemplate_params.
Proof. by apply (bool_decide_unpack _). Qed.

Lemma PeterMacTemplate_has_no_executionDir :
  "executionDir" ∉ p_name <$> PeterMacTemplate_params.
Proof. by apply (bool_decide_unpack _). Qed.

(** C4. Whatever arguments their own signatures accept, the constructors
    of [PawseyDisconnectedTemplate] and [PeterMacDisconnectedTemplate]
    raise a TypeError and the base class is never reached: the first calls
    [PawseyTemplate.__init__] without its required containerDir, the second
    hands [PeterMacTemplate.__init__] the keyword executionDir, which it
    does not have. *)
Theorem disconnected_constructors_raise_TypeError
    (pos1 pos2 : list pyval) (kw1 kw2 : kwargs) (env1 env2 : gmap string pyval)
    (w : world) :
  bind_arguments PawseyDisconnectedTemplate_params pos1 kw1 = Ok env1 →
  bind_arguments PeterMacDisconnectedTemplate_params pos2 kw2 = Ok env2 →
  let r1 := PawseyDisconnectedTemplate___init__ pos1 kw1 w in
  let r2 := PeterMacDisconnectedTemplate___init__ pos2 kw2 w in
  fst r1 = Raise (TypeError (MissingRequired [ "containerDir" ]))
  ∧ calls (snd r1) = calls w
  ∧ fst r2 = Raise (TypeError (UnexpectedKeyword "executionDir"))
  ∧ calls (snd r2) = calls w.
Proof.
  intros H1 H2.
  unfold PawseyDisconnectedTemplate___init__, PeterMacDisconnectedTemplate___init__,
    PawseyTemplate___init__, PeterMacTemplate___init__, mbind, M_bind, lift.
  rewrite H1, H2. cbn [setattr].
  rewrite PawseyTemplate_needs_containerDir.
  rewrite bind_arguments_unexpected by apply PeterMacTemplate_has_no_executionDir.
  done.
Qed.

(** The three calls of [submit_detatched_resume]. The one of
    [PeterMacTemplate] reaches the submission of the base class with
    capture_output=True.

    X16. When the extra keywords do not repeat a keyword the method gives
    itself, [PeterMacTemplate.submit_detatched_resume] makes exactly one
    call of the base submission, with the vector as command, with
    capture_output=True and with the extra keywords after its own; its
    outcome is the outcome of that call, and the instance is not
    changed. *)
Lemma PeterMacTemplate_submit_delegates self wid command logsdir config kw w :
  let explicit :=
    [ ("wid", VStr wid);
      ("command", VList (PeterMacTemplate_newcommand self wid command logsdir config));
      ("capture_output", VBool true);
      ("config", val_of_config config);
      ("logsdir", VStr logsdir) ] in
  NoDup (fst <$> explicit ++ kw) →
  PeterMacTemplate_submit_detatched_resume self wid command logsdir config kw w
  = (base_submit_detatched_resume (explicit ++ kw) (attrs w),
     World (attrs w) (calls w ++ [ BaseSubmit (explicit ++ kw) ]))
  ∧ kw_lookup "capture_output" (explicit ++ kw) = Some (VBool true).
Proof.
  intros explicit Hnd. split; [|done].
  unfold PeterMacTemplate_submit_detatched_resume, mbind, M_bind, lift.
  fold explicit. by rewrite (call_keywords_fresh _ _ Hnd).
Qed.

(** C2, on the code as it is. The methods of the two disconnected classes
    end in [super().__init__(wid=..., ...)], not in
    [super().submit_detatched_resume(...)]: every call raises a TypeError
    and nothing is submitted. *)
Theorem disconnected_submit_never_delegates
    (self : template_self) (wid : string) (command : str_or_list)
    (logsdir : string) (kw : kwargs) (w : world) :
  let r1 := PawseyDisconnectedTemplate_submit_detatched_resume self wid command logsdir kw w in
  let r2 := PeterMacDisconnectedTemplate_submit_detatched_resume self wid command logsdir kw w in
  is_TypeError (fst r1) ∧ calls (snd r1) = calls w
  ∧ is_TypeError (fst r2) ∧ calls (snd r2) = calls w.
Proof.
  unfold PawseyDisconnectedTemplate_submit_detatched_resume,
    PeterMacDisconnectedTemplate_submit_detatched_resume,
    PawseyTemplate___init__, PeterMacTemplate___init__, mbind, M_bind, lift.
  set (c1 := PawseyDisconnectedTemplate_newcommand _ _ _ _).
  set (c2 := PeterMacDisconnectedTemplate_newcommand _ _ _ _).
  assert (Hcase : ∀ c,
    (∃ k, call_keywords [ ("wid", VStr wid); ("command", VList c);
                          ("capture_output", VBool true) ] kw
          = Raise (TypeError (MultipleValues k)))
    ∨ ∃ rest, call_keywords [ ("wid", VStr wid); ("command", VList c);
                              ("capture_output", VBool true) ] kw
              = Ok (("wid", VStr wid) :: rest)).
  { intros c. destruct (call_keywords _ kw) as [kw'|e] eqn:Hc.
    - right. apply call_keywords_Ok in Hc as ->. eauto.
    - left. apply call_keywords_Raise in Hc as [k ->]. eauto. }
  repeat split.
  - destruct (Hcase c1) as [[k ->] | [rest ->]]; [done|].
    by rewrite (bind_arguments_unexpected _ _ _ _ PawseyTemplate_has_no_wid).
  - destruct (Hcase c1) as [[k ->] | [rest ->]]; [done|].
    by rewrite (bind_arguments_unexpected _ _ _ _ PawseyTemplate_has_no_wid).
  - destruct (Hcase c2) as [[k ->] | [rest ->]]; [done|].
    by rewrite (bind_arguments_unexpected _ _ _ _ PeterMacTemplate_has_no_wid).
  - destruct (Hcase c2) as [[k ->] | [rest ->]]; [done|].
    by rewrite (bind_arguments_unexpected _ _ _ _ PeterMacTemplate_has_no_wid).
Qed.


Lemma expected_email_format_orders :
  set_iter expected_email_format = [ VNone; VStr "molpath" ]
  ∨ set_iter expected_email_format = [ VStr "molpath"; VNone ].
Proof.
  apply Permutation_length_2_inv. symmetry. apply set_iter_perm.
Qed.

(** C3. [PeterMacTemplate] with email_format None or "molpath": the check
    lets the construction through, which then is the call of the base
    constructor on the instance with the three attributes set. With any
    other email_format string: an Exception is raised before the base
    class is reached, and its message quotes the rejected value and lists
    'None' and 'molpath' (in the order the set is iterated). *)
Theorem PeterMacTemplate_email_format_check
    (pos : list pyval) (kw : kwargs) (env : gmap string pyval)
    (email_format : option string) (w : world) :
  bind_arguments PeterMacTemplate_params pos kw = Ok env →
  env !!! "email_format" = val_of_opt_str email_format →
  let r := PeterMacTemplate___init__ pos kw w in
  (email_format = None ∨ email_format = Some "molpath" →
   r = super___init__ (PeterMacTemplate_forwarded env)
         (World (<["email_format" := val_of_opt_str email_format]>
                   (<["janis_memory_mb" := env !!! "janis_memory_mb"]>
                      (<["max_workflow_time" := env !!! "max_workflow_time"]>
                         (attrs w))))
                (calls w)))
  ∧ (∀ v, email_format = Some v → v ≠ "molpath" →
     ∃ choices,
       fst r = Raise (Exception ("Argument email_format: invalid choice: '" +:+ v
                                  +:+ "' (choose from " +:+ choices +:+ ")"))
       ∧ (choices = "'None', 'molpath'" ∨ choices = "'molpath', 'None'")
       ∧ calls (snd r) = calls w).
Proof.
  intros Hbind Hef r. subst r.
  unfold PeterMacTemplate___init__, mbind, M_bind, lift.
  rewrite Hbind. cbn [setattr]. rewrite Hef. split.
  - by intros [-> | ->].
  - intros v -> Hv. cbn [val_of_opt_str not_in_set].
    rewrite bool_decide_eq_false_2.
    2:{ unfold expected_email_format. rewrite !elem_of_cons, elem_of_nil.
        intros [? | [[= ?] | []]]; done. }
    cbn [negb raise fst snd calls]. unfold invalid_choice_message.
    destruct expected_email_format_orders as [-> | ->]; eexists;
      (split; [reflexivity|]); split; auto.
Qed.

(** C8. The keyword that carries the module-load instruction to the base
    constructor: "module load singularity/" followed by the version when
    the version is a non-empty string, "module load singularity" when it
    is None. [PeterMacTemplate] reaches the base constructor when its
    email_format is one of the expected ones. *)
Theorem module_load_instruction
    (pos : list pyval) (kw : kwargs) (env : gmap string pyval)
    (version : option string) (w : world) :
  version ≠ Some "" →
  let expected :=
    match version with
    | Some v => "module load singularity/" +:+ v
    | None => "module load singularity"
    end in
  (bind_arguments PawseyTemplate_params pos kw = Ok env →
   env !!! "singularityVersion" = val_of_opt_str version →
   ∃ fw, calls (snd (PawseyTemplate___init__ pos kw w)) = calls w ++ [ BaseInit fw ]
         ∧ kw_lookup "singularityLoadInstructions" fw = Some (VStr expected))
  ∧ (bind_arguments PeterMacTemplate_params pos kw = Ok env →
     env !!! "singularity_version" = val_of_opt_str version →
     env !!! "email_format" ∈ expected_email_format →
     ∃ fw, calls (snd (PeterMacTemplate___init__ pos kw w)) = calls w ++ [ BaseInit fw ]
           ∧ kw_lookup "singularity_load_instructions" fw = Some (VStr expected)).
Proof.
  intros Hv expected.
  assert (Htruthy : truthy (val_of_opt_str version)
                    = match version with Some _ => true | None => false end).
  { destruct version as [v|]; [|done]. simpl.
    by rewrite bool_decide_eq_false_2 by congruence. }
  split.
  - intros Hbind Hver. exists (PawseyTemplate_forwarded env). split.
    + unfold PawseyTemplate___init__, mbind, M_bind, lift, super___init__.
      rewrite Hbind. by destruct (base___init__ _ _).
    + unfold PawseyTemplate_forwarded. rewrite Hver, Htruthy.
      by destruct version.
  - intros Hbind Hver Hef. exists (PeterMacTemplate_forwarded env). split.
    + unfold PeterMacTemplate___init__, mbind, M_bind, lift, super___init__.
      rewrite Hbind. cbn [setattr].
      assert (not_in_set (env !!! "email_format") expected_email_format = Ok false)
        as ->.
      { unfold not_in_set. rewrite bool_decide_eq_true_2 by done.
        unfold expected_email_format in Hef.
        rewrite !elem_of_cons, elem_of_nil in Hef.
        by destruct Hef as [-> | [-> | []]]. }
      cbn. by destruct (base___init__ _ _).
    + unfold PeterMacTemplate_forwarded, PeterMacTemplate_singload.
      cbn [kw_lookup]. rewrite Hver, Htruthy. by destruct version.
Qed.


(* ===================================================================== *)
(** ** The status table *)
(* ===================================================================== *)

Lemma inputs_dict_None (l : list RunInput) (d : gmap string pyval) (k : string) :
  d !! k = None → (∀ i, i ∈ l → tag i ≠ k) →
  dict_of_inputs d l !! k = None.
Proof.
  revert d. induction l as [|i l IH]; intros d Hd Hl; [done|].
  unfold dict_of_inputs in *. simpl. apply IH.
  - rewrite lookup_insert_ne; [done|]. apply Hl. left.
  - intros j Hj. apply Hl. by right.
Qed.


(** C9. For a status that is not final and a run whose inputs have no
    entry tagged "seqrun", [prepare_run_status_table] returns the empty
    string. *)
Theorem prepare_run_status_table_empty (st : TaskStatus) (run : RunModel) :
  is_in_final_state st = false →
  (∀ i, i ∈ inputs run → tag i ≠ "seqrun") →
  prepare_run_status_table st run = "".
Proof.
  intros Hfinal Hseq. unfold prepare_run_status_table.
  rewrite Hfinal.
  rewrite (inputs_dict_None (inputs run) ∅ "seqrun") by done.
  by rewrite (bool_decide_eq_false_2 (is_Some None)) by apply is_Some_None.
Qed.



(* ===================================================================== *)
(** ** The optional blocks and the partition *)
(* ===================================================================== *)

Lemma block_cons_inv b x l :
  contains_block b (x :: l) = true →
  (∃ k, x :: l = b ++ k) ∨ contains_block b l = true.
Proof.
  rewrite contains_block_cons, orb_true_iff, bool_decide_eq_true.
  intros [[k Hk] | Hl]; eauto.
Qed.

Lemma block_nil_inv b : contains_block b [] = true → b = [].
Proof.
  rewrite contains_block_spec. intros (l1 & l2 & Heq).
  destruct l1; [|done]. by destruct b.
Qed.

(** Walk along an explicit vector: at each position either the block
    starts there, which leaves equations between tokens, or it is further
    on. *)
Ltac scan_block H :=
  first
    [ apply block_nil_inv in H; discriminate H
    | let Hhere := fresh "Hhere" in
      let Hnext := fresh "Hnext" in
      destruct (block_cons_inv _ _ _ H) as [[? Hhere] | Hnext]; clear H;
      [ simplify_eq/= | scan_block Hnext ] ].

(** The block starts after the first [n] tokens of an explicit vector. *)
Ltac block_after n :=
  cbn [app];
  lazymatch goal with
  | |- contains_block ?b ?l = true =>
      apply contains_block_spec;
      exists (take n l), (drop (n + length b) l); reflexivity
  end.

(** A numeral is none of the fixed tokens. *)
Ltac not_a_numeral :=
  match goal with
  | H : str_int _ = _ |- _ =>
      apply (f_equal starts_like_int) in H;
      rewrite starts_like_int_str_int in H; discriminate H
  | H : _ = str_int _ |- _ =>
      apply (f_equal starts_like_int) in H;
      rewrite starts_like_int_str_int in H; discriminate H
  end.

Lemma int_truthy_Some x z : int_truthy x = Some z ↔ x = Some z ∧ z ≠ 0.
Proof.
  unfold int_truthy. destruct x as [y|]; [|by split; [|intros []]].
  destruct (Z.eqb_spec y 0) as [->|Hy]; split; try done.
  - by intros [[= <-] ?].
  - by intros [= <-].
  - by intros [[= <-] ?].
Qed.

Lemma notification_email_Some config e :
  notification_email config = Some e
  ↔ ∃ c n, config = Some c ∧ notifications c = Some n ∧ email n = Some e ∧ e ≠ "".
Proof.
  unfold notification_email. split.
  - destruct config as [c|]; [|done]. simpl.
    destruct (notifications c) as [n|] eqn:Hn; [|done]. simpl.
    destruct (email n) as [e'|] eqn:He; [|done]. simpl.
    case_bool_decide; [done|]. intros [= ->]. by exists c, n.
  - intros (c & n & -> & Hn & He & Hne). simpl. rewrite Hn. simpl.
    rewrite He. simpl. by rewrite bool_decide_eq_false_2.
Qed.

(** C5. In the vector of [PeterMacTemplate] the tokens --mail-user, an
    address e, --mail-type, END stand next to each other exactly when the
    send-email flag of the template is true and a configuration is given
    whose notifications hold the non-empty address e. *)
Theorem mail_block_iff
    (self : template_self) (wid : string) (command : str_or_list)
    (logsdir : string) (config : option JanisConfiguration) (e : string) :
  contains_block [ "--mail-user"; e; "--mail-type"; "END" ]
    (PeterMacTemplate_newcommand self wid command logsdir config) = true
  ↔ send_job_emails self = true
    ∧ ∃ c n, config = Some c ∧ notifications c = Some n
             ∧ email n = Some e ∧ e ≠ "".
Proof.
  rewrite PeterMacTemplate_newcommand_eq, <- notification_email_Some.
  unfold PeterMacTemplate_optional.
  transitivity ((if send_job_emails self then notification_email config else None)
                = Some e);
    [|destruct (send_job_emails self); split;
        [by intros ? | by intros [_ ?] | done | by intros [? _]]].
  destruct (if send_job_emails self then _ else _) as [e'|]; split.
  - intros Hb. destruct (int_truthy (janis_memory_mb self)); scan_block Hb; done.
  - intros [= ->]. destruct (int_truthy (janis_memory_mb self));
      block_after 11%nat.
  - intros Hb. destruct (int_truthy (janis_memory_mb self)); scan_block Hb.
  - done.
Qed.

(** C6, as the code has it. In the vector of [PeterMacTemplate] the tokens
    --mem and the decimal numeral of mb stand next to each other exactly
    when the memory override of the template is mb and mb is not zero. *)
Theorem mem_block_iff
    (self : template_self) (wid : string) (command : str_or_list)
    (logsdir : string) (config : option JanisConfiguration) (mb : Z) :
  contains_block [ "--mem"; str_int mb ]
    (PeterMacTemplate_newcommand self wid command logsdir config) = true
  ↔ janis_memory_mb self = Some mb ∧ mb ≠ 0.
Proof.
  rewrite PeterMacTemplate_newcommand_eq, <- int_truthy_Some.
  unfold PeterMacTemplate_optional.
  destruct (int_truthy (janis_memory_mb self)) as [mb'|]; split.
  - intros Hb.
    destruct (if send_job_emails self then _ else _); scan_block Hb;
      try not_a_numeral;
      match goal with H : str_int _ = str_int _ |- _ =>
        by apply str_int_inj in H as -> end.
  - intros [= ->].
    destruct (if send_job_emails self then _ else _) as [e|].
    + block_after 15%nat.
    + block_after 11%nat.
  - intros Hb.
    destruct (if send_job_emails self then _ else _); scan_block Hb;
      not_a_numeral.
  - done.
Qed.

(** C7, as the code has it. In the vector of [PawseyDisconnectedTemplate]
    the token after -p is the override when the override is a non-empty
    string; when the override is None or the empty string it is the
    configured queues, joined with ", " when they are a list. *)
Theorem pawsey_partition_resolution
    (self : template_self) (wid : string) (command : str_or_list)
    (logsdir : string) :
  let argv := PawseyDisconnectedTemplate_newcommand self wid command logsdir in
  let configured :=
    match queues self with
    | StrList l => join ", " l
    | OneStr s => s
    end in
  argv !! 1%nat = Some "-p"
  ∧ (∀ override, submission_queue self = Some override → override ≠ "" →
       argv !! 2%nat = Some override)
  ∧ (submission_queue self = None ∨ submission_queue self = Some "" →
       argv !! 2%nat = Some configured).
Proof.
  simpl. split; [done|]. unfold str_or. split.
  - intros override -> Hne. by rewrite bool_decide_eq_false_2.
  - by intros [-> | ->].
Qed.


(* ===================================================================== *)
(** ** The configuration hook and the molpath email *)
(* ===================================================================== *)

(** X1. When the hook of the base class returns, the hook returns the
    configuration the base class left, with a caching method that is never
    empty: the one already there when it is a non-empty string,
    "fingerprint" when it is None or the empty string. Nothing else is
    changed. *)
Theorem post_configuration_hook_caching_method
    (configuration configuration' : HookConfiguration) :
  base_post_configuration_hook configuration = Ok configuration' →
  ∃ method,
    post_configuration_hook configuration
    = Ok {| cromwell :=
              {| call_caching_method := Some method;
                 cromwell_settings := cromwell_settings (cromwell configuration') |};
            general := general configuration' |}
    ∧ method ≠ ""
    ∧ (∀ m, call_caching_method (cromwell configuration') = Some m → m ≠ "" →
         method = m)
    ∧ (call_caching_method (cromwell configuration') = None
       ∨ call_caching_method (cromwell configuration') = Some "" →
         method = "fingerprint").
Proof.
  intros Hbase. unfold post_configuration_hook. rewrite Hbase.
  destruct configuration' as [[[m|] settings] gen]; simpl.
  - case_bool_decide as Hm; simpl.
    + subst m. exists "fingerprint". repeat split; try done.
      by intros m [= <-].
    + exists m. repeat split; try done.
      * by intros m' [= <-].
      * by intros [|[= ?]].
  - exists "fingerprint". by repeat split.
Qed.

Lemma remove_dups_constant (n : string) (l : list string) :
  l ≠ [] → (∀ x, x ∈ l → x = n) → remove_dups l = [ n ].
Proof.
  induction l as [|x l IH]; [done|]. intros _ Hall. simpl.
  assert (x = n) as -> by (apply Hall; left).
  destruct (decide_rel elem_of n l) as [Hin|Hnin].
  - apply IH.
    + intros ->. by apply elem_of_nil in Hin.
    + intros z Hz. apply Hall. by right.
  - destruct l as [|y l]; [done|]. exfalso. apply Hnin.
    assert (y = n) as -> by (apply Hall; right; left). left.
Qed.

Lemma set_iter_strings (names : list string) :
  ∃ order, set_iter (VStr <$> names) = VStr <$> order ∧ order ≡ₚ names.
Proof.
  destruct (Permutation_map_inv VStr names (l1 := set_iter (VStr <$> names)))
    as (order & Heq & Hperm).
  - apply set_iter_perm.
  - exists order. split; [exact Heq | by symmetry].
Qed.

(** X3. The workflow name of the molpath email lists every distinct run
    name exactly once, separated by ", ", in some order: no runs give the
    empty string, and runs that all have the name n give n. *)
Theorem joined_run_names_distinct (metadata : SubmissionModel) :
  (∃ order,
      joined_run_names metadata = join ", " order
      ∧ NoDup order
      ∧ ∀ n, n ∈ order ↔ ∃ r, r ∈ runs metadata ∧ run_name r = n)
  ∧ (runs metadata = [] → joined_run_names metadata = "")
  ∧ (∀ n, runs metadata ≠ [] → (∀ r, r ∈ runs metadata → run_name r = n) →
       joined_run_names metadata = n).
Proof.
  unfold joined_run_names.
  destruct (set_iter_strings (remove_dups (run_name <$> runs metadata)))
    as (order & -> & Hperm).
  assert (Hstr : ∀ l : list string, py_str <$> (VStr <$> l) = l).
  { intros l. rewrite <- list_fmap_compose. apply list_fmap_id. }
  rewrite Hstr. split; [|split].
  - exists order. split; [done|]. split.
    + rewrite Hperm. apply NoDup_remove_dups.
    + intros n. rewrite Hperm, elem_of_remove_dups, list_elem_of_fmap.
      split; intros (r & ? & ?); by exists r.
  - intros Hruns. rewrite Hruns in Hperm. simpl in Hperm.
    by apply Permutation_nil_r in Hperm as ->.
  - intros n Hne Hall.
    rewrite (remove_dups_constant n) in Hperm.
    + symmetry in Hperm. by apply Permutation_length_1_inv in Hperm as ->.
    + by destruct (runs metadata).
    + intros x (r & -> & Hr)%list_elem_of_fmap. by apply Hall.
Qed.


(* ===================================================================== *)
(** ** More on the style attribute and the status table *)
(* ===================================================================== *)

Lemma dict_get_set (k k' v : string) (d : list (string * string)) :
  dict_get k' (dict_set k v d) = if bool_decide (k = k') then Some v else dict_get k' d.
Proof.
  induction d as [|[k0 v0] d IH]; simpl.
  - done.
  - destruct (bool_decide_reflect (k0 = k)) as [->|Hk0]; simpl.
    + by destruct (bool_decide_reflect (k = k')).
    + rewrite IH. destruct (bool_decide_reflect (k = k')) as [->|?]; [|done].
      by rewrite bool_decide_eq_false_2.
Qed.

Lemma dict_set_keys (k v : string) (d : list (string * string)) :
  (dict_set k v d).*1 = if bool_decide (k ∈ d.*1) then d.*1 else d.*1 ++ [ k ].
Proof.
  induction d as [|[k0 v0] d IH]; [done|].
  cbn [dict_set]. rewrite fmap_cons. cbn [fst].
  destruct (bool_decide_reflect (k0 = k)) as [->|Hk0]; rewrite fmap_cons; cbn [fst].
  - rewrite bool_decide_eq_true_2; [done | left].
  - rewrite IH. destruct (bool_decide_reflect (k ∈ d.*1)) as [Hin|Hnin].
    + rewrite bool_decide_eq_true_2; [done | by right].
    + rewrite bool_decide_eq_false_2; [done|].
      intros [?|?]%elem_of_cons; done.
Qed.

(** X4. The style attribute is made of the caller's entries, in the
    caller's order, followed by those of border and padding that the
    caller did not give; border and padding always have the fixed values,
    whatever the caller gave for them, and every other entry keeps its
    value. *)
Theorem table_style_gen_entries (kw : list (string * string)) :
  ∃ entries,
    table_style_gen kw
    = "style=" +:+ dquote
        +:+ join " " ((λ e, fst e +:+ ": " +:+ snd e +:+ ";") <$> entries)
        +:+ dquote
    ∧ entries.*1 = kw.*1 ++ filter (λ k, k ∉ kw.*1) [ "border"; "padding" ]
    ∧ dict_get "border" entries = Some "1px solid black"
    ∧ dict_get "padding" entries = Some "8px"
    ∧ ∀ k, k ≠ "border" → k ≠ "padding" → dict_get k entries = dict_get k kw.
Proof.
  exists (dict_set "padding" "8px" (dict_set "border" "1px solid black" kw)).
  split; [reflexivity|]. split; [|split; [|split]].
  - rewrite !dict_set_keys, !filter_cons, filter_nil.
    destruct (bool_decide_reflect ("border" ∈ kw.*1)) as [Hb|Hb];
      [rewrite (decide_False (P := "border" ∉ kw.*1)) by auto
      |rewrite (decide_True (P := "border" ∉ kw.*1)) by done];
      destruct (decide ("padding" ∉ kw.*1)) as [Hp|Hp].
    + rewrite bool_decide_eq_false_2; done.
    + apply dec_stable in Hp. rewrite bool_decide_eq_true_2 by done.
      by rewrite app_nil_r.
    + rewrite bool_decide_eq_false_2; [by rewrite <- app_assoc|].
      intros [?|[= ]%list_elem_of_singleton]%elem_of_app; done.
    + apply dec_stable in Hp. rewrite bool_decide_eq_true_2; [done|].
      apply elem_of_app. by left.
  - by rewrite !dict_get_set.
  - by rewrite !dict_get_set.
  - intros k Hb Hp. rewrite !dict_get_set.
    by rewrite !bool_decide_eq_false_2.
Qed.


Lemma dict_of_inputs_last (d : gmap string pyval) (l : list RunInput) (i : RunInput) :
  dict_of_inputs d (l ++ [ i ]) !! tag i = Some (value i).
Proof.
  unfold dict_of_inputs. rewrite foldl_app. simpl. apply lookup_insert_eq.
Qed.

(** The table as a function of the value found for "seqrun". *)
Lemma prepare_run_status_table_seqrun (st : TaskStatus) (run : RunModel) (v : pyval) :
  dict_of_inputs ∅ (inputs run) !! "seqrun" = Some v →
  prepare_run_status_table st run
  = prepare_run_status_table st
      {| inputs := [ {| tag := "seqrun"; value := v |} ]; jobs := jobs run |}.
Proof.
  intros Hv. unfold prepare_run_status_table. cbn [inputs jobs].
  assert (Hone : dict_of_inputs ∅ [ {| tag := "seqrun"; value := v |} ] !! "seqrun"
                 = Some v) by apply (dict_of_inputs_last ∅ []).
  rewrite !lookup_total_alt, Hv, Hone. reflexivity.
Qed.

(** X6. When the last input of a run is tagged "seqrun", the inputs before
    it do not matter: the table is the one of the run with that input
    alone. In particular a later seqrun entry replaces an earlier one. *)
Theorem prepare_run_status_table_last_seqrun
    (st : TaskStatus) (l : list RunInput) (i : RunInput) (js : list RunJob) :
  tag i = "seqrun" →
  prepare_run_status_table st {| inputs := l ++ [ i ]; jobs := js |}
  = prepare_run_status_table st {| inputs := [ i ]; jobs := js |}.
Proof.
  intros Htag. destruct i as [t v]. simpl in Htag. subst t.
  apply (prepare_run_status_table_seqrun st {| inputs := _; jobs := js |}).
  apply (dict_of_inputs_last ∅ l {| tag := "seqrun"; value := v |}).
Qed.



(* ===================================================================== *)
(** ** More on the constructors *)
(* ===================================================================== *)

Lemma PeterMacTemplate_reaches_base pos kw env w :
  bind_arguments PeterMacTemplate_params pos kw = Ok env →
  env !!! "email_format" ∈ expected_email_format →
  calls (snd (PeterMacTemplate___init__ pos kw w))
  = calls w ++ [ BaseInit (PeterMacTemplate_forwarded env) ].
Proof.
  intros Hbind Hef.
  unfold PeterMacTemplate___init__, mbind, M_bind, lift, super___init__.
  rewrite Hbind. cbn [setattr].
  assert (not_in_set (env !!! "email_format") expected_email_format = Ok false)
    as ->.
  { unfold not_in_set. rewrite bool_decide_eq_true_2 by done.
    unfold expected_email_format in Hef.
    rewrite !elem_of_cons, elem_of_nil in Hef.
    by destruct Hef as [-> | [-> | []]]. }
  cbn. by destruct (base___init__ _ _).
Qed.

(** X8. [PeterMacTemplate] hands the base constructor one queue string:
    a list of queues joined with "," (no space), a string as it is. Build
    instructions given by the caller are passed on unchanged; when none
    are given (None or the empty string) the default ones submit to that
    same queue string and pull into the container directory. *)
Theorem PeterMacTemplate_forwards_queues
    (pos : list pyval) (kw : kwargs) (env : gmap string pyval) (w : world) :
  bind_arguments PeterMacTemplate_params pos kw = Ok env →
  env !!! "email_format" ∈ expected_email_format →
  ∃ fw jq,
    calls (snd (PeterMacTemplate___init__ pos kw w)) = calls w ++ [ BaseInit fw ]
    ∧ kw_lookup "queues" fw = Some (VStr jq)
    ∧ (∀ l, env !!! "queues" = VList l → jq = join "," l)
    ∧ (∀ s, env !!! "queues" = VStr s → jq = s)
    ∧ (truthy (env !!! "singularity_build_instructions") = true →
       kw_lookup "build_instructions" fw
       = Some (env !!! "singularity_build_instructions"))
    ∧ (truthy (env !!! "singularity_build_instructions") = false →
       kw_lookup "build_instructions" fw
       = Some (VStr ("sbatch -p " +:+ jq
           +:+ " --wait     --wrap 'unset SINGULARITY_TMPDIR && docker_subbed=$(sed -e 's/[^A-Za-z0-9._-]/_/g' <<< ${docker})     && image="
           +:+ py_str (env !!! "container_dir")
           +:+ "/$docker_subbed.sif && singularity pull $image docker://${docker}'"))).
Proof.
  intros Hbind Hef.
  exists (PeterMacTemplate_forwarded env), (PeterMacTemplate_joined_queued env).
  split; [by apply PeterMacTemplate_reaches_base|].
  split; [reflexivity|].
  unfold PeterMacTemplate_forwarded, PeterMacTemplate_build_instructions.
  cbn [kw_lookup bool_decide decide_rel]. unfold PeterMacTemplate_joined_queued.
  repeat split.
  - by intros l ->.
  - by intros s ->.
  - intros ->. reflexivity.
  - intros ->. reflexivity.
Qed.

(** X9. A version that is falsy (None, the empty string, 0, False, an
    empty list) gives the plain instruction "module load singularity",
    without a slash, on both classes. *)
Theorem module_load_instruction_plain
    (pos : list pyval) (kw : kwargs) (env : gmap string pyval) :
  (bind_arguments PawseyTemplate_params pos kw = Ok env →
   truthy (env !!! "singularityVersion") = false →
   kw_lookup "singularityLoadInstructions" (PawseyTemplate_forwarded env)
   = Some (VStr "module load singularity"))
  ∧ (bind_arguments PeterMacTemplate_params pos kw = Ok env →
     truthy (env !!! "singularity_version") = false →
     kw_lookup "singularity_load_instructions" (PeterMacTemplate_forwarded env)
     = Some (VStr "module load singularity")).
Proof.
  split; intros _ Hfalsy.
  - unfold PawseyTemplate_forwarded. by rewrite Hfalsy.
  - unfold PeterMacTemplate_forwarded, PeterMacTemplate_singload.
    by rewrite Hfalsy.
Qed.

(** X10. An email_format outside the annotated type: a list cannot be
    looked up in the set and raises TypeError; any other value that is
    neither None nor "molpath" raises the invalid-choice Exception, which
    quotes the value as [str] prints it. Neither reaches the base
    class. *)
Theorem PeterMacTemplate_email_format_other_types
    (pos : list pyval) (kw : kwargs) (env : gmap string pyval) (w : world) :
  bind_arguments PeterMacTemplate_params pos kw = Ok env →
  let r := PeterMacTemplate___init__ pos kw w in
  (∀ l, env !!! "email_format" = VList l →
     fst r = Raise (TypeError Unhashable) ∧ calls (snd r) = calls w)
  ∧ ((∀ l, env !!! "email_format" ≠ VList l) →
     env !!! "email_format" ∉ expected_email_format →
     fst r = Raise (Exception (invalid_choice_message (env !!! "email_format")))
     ∧ (∃ choices,
          invalid_choice_message (env !!! "email_format")
          = "Argument email_format: invalid choice: '"
              +:+ py_str (env !!! "email_format")
              +:+ "' (choose from " +:+ choices +:+ ")"
          ∧ (choices = "'None', 'molpath'" ∨ choices = "'molpath', 'None'"))
     ∧ calls (snd r) = calls w).
Proof.
  intros Hbind r. subst r.
  unfold PeterMacTemplate___init__, mbind, M_bind, lift.
  rewrite Hbind. cbn [setattr]. split.
  - by intros l ->.
  - intros Hnl Hni.
    assert (not_in_set (env !!! "email_format") expected_email_format = Ok true)
      as ->.
    { unfold not_in_set. rewrite bool_decide_eq_false_2 by done.
      destruct (env !!! "email_format"); try done. by destruct (Hnl l). }
    cbn. split; [done|]. split; [|done].
    unfold invalid_choice_message.
    destruct expected_email_format_orders as [-> | ->]; eexists;
      (split; [reflexivity|]); auto.
Qed.


Lemma bind_keywords_fresh sig kw env :
  NoDup kw.*1 →
  (∀ k, k ∈ kw.*1 → k ∈ p_name <$> sig) →
  (∀ k, k ∈ kw.*1 → env !! k = None) →
  ∃ env', bind_keywords sig kw env = Ok env'
          ∧ ∀ k, k ∉ kw.*1 → env' !! k = env !! k.
Proof.
  revert env. induction kw as [|[k v] kw IH]; intros env Hnd Hsig Hfree.
  - by exists env.
  - rewrite fmap_cons in *. cbn [fst] in *.
    apply NoDup_cons in Hnd as [Hk Hnd]. cbn [bind_keywords].
    rewrite (bool_decide_eq_true_2 (k ∈ p_name <$> sig)) by (apply Hsig; left).
    rewrite (Hfree k) by left.
    rewrite (bool_decide_eq_false_2 (is_Some None)) by apply is_Some_None.
    cbn [negb].
    destruct (IH (<[k := v]> env)) as (env' & Hok & Hkeep); [done| | |].
    + intros k' Hk'. apply Hsig. by right.
    + intros k' Hk'. rewrite lookup_insert_ne by (by intros ->).
      apply Hfree. by right.
    + exists env'. split; [done|]. intros k' Hk'.
      apply not_elem_of_cons in Hk' as [Hne Hk'].
      rewrite Hkeep by done. by apply lookup_insert_ne.
Qed.

(** X11. [PawseyTemplate] cannot be constructed from keywords alone
    unless containerDir is among them: whatever keywords of its signature
    are given, the call raises TypeError for the missing containerDir and
    the base class is not reached. *)
Theorem PawseyTemplate_requires_containerDir (kw : kwargs) (w : world) :
  NoDup kw.*1 →
  (∀ k, k ∈ kw.*1 → k ∈ p_name <$> PawseyTemplate_params) →
  "containerDir" ∉ kw.*1 →
  PawseyTemplate___init__ [] kw w
  = (Raise (TypeError (MissingRequired [ "containerDir" ])), w).
Proof.
  intros Hnd Hsig Hmissing.
  destruct (bind_keywords_fresh PawseyTemplate_params kw ∅ Hnd Hsig)
    as (env & Hok & Hkeep); [done|].
  unfold PawseyTemplate___init__, mbind, M_bind, lift, bind_arguments.
  change (bind_positional PawseyTemplate_params [] ∅) with (∅ : gmap string pyval).
  rewrite Hok.
  rewrite bool_decide_eq_false_2 by (cbn; lia).
  assert (missing_required PawseyTemplate_params env = [ "containerDir" ]) as ->.
  { unfold missing_required, PawseyTemplate_params.
    rewrite filter_cons_True by (cbn; by rewrite Hkeep).
    by rewrite !filter_cons_False by (cbn; by intros [_ ?]). }
  done.
Qed.

(* ===================================================================== *)
(** ** More on the argument vector *)
(* ===================================================================== *)

Lemma string_app_assoc (a b c : string) : (a +:+ b) +:+ c = a +:+ (b +:+ c).
Proof.
  induction a as [|x a IH]; [done|].
  change (String x ((a +:+ b) +:+ c) = String x (a +:+ (b +:+ c))).
  by f_equal.
Qed.

Lemma join_cons_cons (sep a b : string) (l : list string) :
  join sep (a :: b :: l) = a +:+ sep +:+ join sep (b :: l).
Proof. reflexivity. Qed.

Lemma join_merge_pair (l1 l2 : list string) (x y : string) :
  join " " (l1 ++ [ x +:+ " " +:+ y ] ++ l2) = join " " (l1 ++ [ x; y ] ++ l2).
Proof.
  induction l1 as [|a l1 IH].
  - destruct l2 as [|z l2]; [done|]. cbn [app].
    rewrite !join_cons_cons. by rewrite !string_app_assoc.
  - destruct l1 as [|b l1].
    + cbn [app] in *. rewrite (join_cons_cons _ a x), join_cons_cons.
      by rewrite IH.
    + cbn [app] in *. rewrite !(join_cons_cons _ a b). by rewrite IH.
Qed.

(** X12. The token after --time: on [PawseyDisconnectedTemplate] always
    "4-00:00:00"; on the two PeterMac classes the decimal numeral of
    max_workflow_time when that is a non-zero int, and when it is None or
    0 the fallback, which is 14400 on [PeterMacTemplate] and 1440 on
    [PeterMacDisconnectedTemplate]. *)
Theorem duration_token
    (self : template_self) (wid : string) (command : str_or_list)
    (logsdir : string) (config : option JanisConfiguration) :
  let pm := PeterMacTemplate_newcommand self wid command logsdir config in
  let pmd := PeterMacDisconnectedTemplate_newcommand self wid command logsdir in
  let paw := PawseyDisconnectedTemplate_newcommand self wid command logsdir in
  (pm !! 5%nat = Some "--time" ∧ pmd !! 5%nat = Some "--time"
   ∧ paw !! 5%nat = Some "--time" ∧ paw !! 6%nat = Some "4-00:00:00")
  ∧ (∀ t, max_workflow_time self = Some t → t ≠ 0 →
       pm !! 6%nat = Some (str_int t) ∧ pmd !! 6%nat = Some (str_int t))
  ∧ (max_workflow_time self = None ∨ max_workflow_time self = Some 0 →
       pm !! 6%nat = Some "14400" ∧ pmd !! 6%nat = Some "1440").
Proof.
  intros pm pmd paw. subst pm pmd paw.
  rewrite PeterMacTemplate_newcommand_eq.
  split; [done|]. split.
  - intros t Ht Hne. cbn. rewrite Ht. cbn.
    by destruct (Z.eqb_spec t 0).
  - intros [Ht | Ht]; cbn; by rewrite Ht.
Qed.

(** X13. A command given as one string is the payload as it is: each of
    the three vectors is the vector of the one-token list of that string,
    and ends with --wrap and the string. *)
Theorem string_command_is_payload
    (self : template_self) (wid s logsdir : string)
    (config : option JanisConfiguration) :
  let pm := PeterMacTemplate_newcommand self wid (OneStr s) logsdir config in
  let pmd := PeterMacDisconnectedTemplate_newcommand self wid (OneStr s) logsdir in
  let paw := PawseyDisconnectedTemplate_newcommand self wid (OneStr s) logsdir in
  pm = PeterMacTemplate_newcommand self wid (StrList [ s ]) logsdir config
  ∧ pmd = PeterMacDisconnectedTemplate_newcommand self wid (StrList [ s ]) logsdir
  ∧ paw = PawseyDisconnectedTemplate_newcommand self wid (StrList [ s ]) logsdir
  ∧ (∃ front, pm = front ++ [ "--wrap"; s ])
  ∧ (∃ front, pmd = front ++ [ "--wrap"; s ])
  ∧ (∃ front, paw = front ++ [ "--wrap"; s ]).
Proof.
  intros pm pmd paw. subst pm pmd paw. repeat split.
  - rewrite PeterMacTemplate_newcommand_eq. eexists (_ ++ _).
    by rewrite <- app_assoc.
  - by eexists [_; _; _; _; _; _; _; _; _; _; _].
  - by eexists [_; _; _; _; _; _; _; _; _; _; _].
Qed.

(** X14. Flattening the command loses the token boundaries: a token that
    holds a space gives the same vector as the two tokens on either side
    of the space, on all three classes. *)
Theorem command_flattening_is_lossy
    (self : template_self) (wid logsdir : string)
    (config : option JanisConfiguration) (l1 l2 : list string) (x y : string) :
  PeterMacTemplate_newcommand self wid
    (StrList (l1 ++ [ x +:+ " " +:+ y ] ++ l2)) logsdir config
  = PeterMacTemplate_newcommand self wid (StrList (l1 ++ [ x; y ] ++ l2)) logsdir config
  ∧ PeterMacDisconnectedTemplate_newcommand self wid
      (StrList (l1 ++ [ x +:+ " " +:+ y ] ++ l2)) logsdir
    = PeterMacDisconnectedTemplate_newcommand self wid
        (StrList (l1 ++ [ x; y ] ++ l2)) logsdir
  ∧ PawseyDisconnectedTemplate_newcommand self wid
      (StrList (l1 ++ [ x +:+ " " +:+ y ] ++ l2)) logsdir
    = PawseyDisconnectedTemplate_newcommand self wid
        (StrList (l1 ++ [ x; y ] ++ l2)) logsdir.
Proof.
  unfold PeterMacTemplate_newcommand, PeterMacDisconnectedTemplate_newcommand,
    PawseyDisconnectedTemplate_newcommand, joined.
  by rewrite join_merge_pair.
Qed.


Lemma endswith_sep_spec (s : string) :
  endswith_sep s = true ↔ ∃ d, s = d +:+ "/".
Proof.
  induction s as [|c s IH].
  - split; [done|]. intros [[|? ?] Hd]; cbv [append] in Hd; by simplify_eq.
  - destruct s as [|c' s'].
    + cbn [endswith_sep]. rewrite bool_decide_eq_true. split.
      * intros ->. by exists "".
      * intros [[|x [|? ?]] Hd]; cbv [append] in Hd; by simplify_eq.
    + change (endswith_sep (String c (String c' s')))
        with (endswith_sep (String c' s')).
      rewrite IH. split.
      * intros [d Hd]. exists (String c d).
        change (String c d +:+ "/") with (String c (d +:+ "/")). by rewrite Hd.
      * intros [[|x d] Hd]; [done|].
        change (String x d +:+ "/") with (String x (d +:+ "/")) in Hd.
        exists d. by simplify_eq.
Qed.

(** X15. The tokens after -o and -e, on all three classes: for an empty
    logsdir the bare file names, for a logsdir that ends with a slash the
    file names appended without a second slash, for any other logsdir the
    directory, a slash and the file name. *)
Theorem log_paths
    (self : template_self) (wid : string) (command : str_or_list)
    (logsdir : string) (config : option JanisConfiguration) :
  ∃ out err,
    (∀ v, v = PeterMacTemplate_newcommand self wid command logsdir config
          ∨ v = PeterMacDisconnectedTemplate_newcommand self wid command logsdir
          ∨ v = PawseyDisconnectedTemplate_newcommand self wid command logsdir →
       v !! 7%nat = Some "-o" ∧ v !! 8%nat = Some out
       ∧ v !! 9%nat = Some "-e" ∧ v !! 10%nat = Some err)
    ∧ (logsdir = "" → out = "slurm.stdout" ∧ err = "slurm.stderr")
    ∧ (∀ d, logsdir = d +:+ "/" →
         out = d +:+ "/slurm.stdout" ∧ err = d +:+ "/slurm.stderr")
    ∧ (logsdir ≠ "" → (∀ d, logsdir ≠ d +:+ "/") →
         out = logsdir +:+ "/slurm.stdout" ∧ err = logsdir +:+ "/slurm.stderr").
Proof.
  exists (os_path_join logsdir "slurm.stdout"), (os_path_join logsdir "slurm.stderr").
  split; [|split; [|split]].
  - intros v [-> | [-> | ->]]; [rewrite PeterMacTemplate_newcommand_eq| |]; done.
  - by intros ->.
  - intros d ->. unfold os_path_join. cbn [startswith_sep bool_decide decide_rel].
    rewrite (proj2 (endswith_sep_spec (d +:+ "/"))) by eauto.
    rewrite orb_true_r. by rewrite !string_app_assoc.
  - intros Hne Hns. unfold os_path_join.
    rewrite bool_decide_eq_false_2 by done.
    destruct (endswith_sep logsdir) eqn:He; [|done].
    apply endswith_sep_spec in He as [d ->]. by destruct (Hns d).
Qed.

Lemma call_keywords_clash (explicit extra : kwargs) (k : string) :
  k ∈ explicit.*1 → k ∈ extra.*1 →
  ∃ k', call_keywords explicit extra = Raise (TypeError (MultipleValues k')).
Proof.
  revert explicit. induction extra as [|[k0 v0] extra IH]; intros explicit Hex Hin.
  - by apply elem_of_nil in Hin.
  - cbn [call_keywords]. case_bool_decide as Hk0; [eauto|].
    apply IH.
    + rewrite fmap_app. apply elem_of_app. by left.
    + rewrite fmap_cons in Hin. apply elem_of_cons in Hin as [-> | ?]; done.
Qed.

(** X17. A caller of [PeterMacTemplate.submit_detatched_resume] who passes
    capture_output among the extra keywords gets a TypeError for the
    keyword given twice, and nothing is submitted. *)
Theorem PeterMacTemplate_submit_capture_output_clash
    (self : template_self) (wid : string) (command : str_or_list)
    (logsdir : string) (config : option JanisConfiguration) (kw : kwargs)
    (w : world) :
  "capture_output" ∈ kw.*1 →
  ∃ k,
    PeterMacTemplate_submit_detatched_resume self wid command logsdir config kw w
    = (Raise (TypeError (MultipleValues k)), w).
Proof.
  intros Hin.
  unfold PeterMacTemplate_submit_detatched_resume, mbind, M_bind, lift.
  edestruct (call_keywords_clash
               [ ("wid", VStr wid);
                 ("command",
                  VList (PeterMacTemplate_newcommand self wid command logsdir config));
                 ("capture_output", VBool true);
                 ("config", val_of_config config);
                 ("logsdir", VStr logsdir) ] kw "capture_output") as [k ->];
    [by apply (bool_decide_unpack _) | done |].
  by exists k.
Qed.

(** X18. The two disconnected classes build exactly thirteen tokens,
    whatever the instance holds: they add neither mail nor memory tokens.
    [PeterMacTemplate] builds thirteen, plus four when it adds the mail
    block, plus two when it adds the memory block. *)
Theorem vector_length
    (self : template_self) (wid : string) (command : str_or_list)
    (logsdir : string) (config : option JanisConfiguration) :
  length (PawseyDisconnectedTemplate_newcommand self wid command logsdir) = 13%nat
  ∧ length (PeterMacDisconnectedTemplate_newcommand self wid command logsdir) = 13%nat
  ∧ length (PeterMacTemplate_newcommand self wid command logsdir config)
    = (13
       + (if send_job_emails self && bool_decide (is_Some (notification_email config))
          then 4 else 0)
       + (if bool_decide (is_Some (int_truthy (janis_memory_mb self)))
          then 2 else 0))%nat.
Proof.
  split; [done|]. split; [done|].
  rewrite PeterMacTemplate_newcommand_eq. unfold PeterMacTemplate_optional.
  destruct (send_job_emails self), (notification_email config),
    (int_truthy (janis_memory_mb self)); reflexivity.
Qed.

End Templates.

(* ===================================================================== *)
(** ** The code on concrete inputs *)
(* ===================================================================== *)

(** The call of [PeterMacTemplate] reaches the base class, with
    capture_output=True among the keywords. *)
Example PeterMacTemplate_submit_abc123 :
  calls (snd (PeterMacTemplate_submit_detatched_resume (base := base0)
    {| queues := OneStr "prod_med,prod"; submission_queue := None;
       send_job_emails := false; max_workflow_time := Some 20100;
       janis_memory_mb := None |}
    "abc123" (StrList [ "run.sh"; "--flag" ]) "/logs" None [] world0))
  = [ BaseSubmit
        [ ("wid", VStr "abc123");
          ("command",
           VList [ "sbatch"; "-p"; "janis"; "-J"; "janis-abc123"; "--time"; "20100";
                   "-o"; "/logs/slurm.stdout"; "-e"; "/logs/slurm.stderr";
                   "--wrap"; "run.sh --flag" ]);
          ("capture_output", VBool true);
          ("config", VNone);
          ("logsdir", VStr "/logs") ] ].
Proof. by vm_compute. Qed.

(** C2 at a concrete call: on the two disconnected classes the call ends
    in a TypeError for the keyword wid, and the log of calls to the base
    class stays empty. *)
Example disconnected_submit_abc123 :
  PawseyDisconnectedTemplate_submit_detatched_resume
    (runtime := runtime0) (base := base0)
    {| queues := OneStr "workq"; submission_queue := Some "longq";
       send_job_emails := true; max_workflow_time := None;
       janis_memory_mb := None |}
    "abc123" (StrList [ "run.sh"; "--flag" ]) "/logs" [] world0
  = (Raise (TypeError (UnexpectedKeyword "wid")), world0)
  ∧ PeterMacDisconnectedTemplate_submit_detatched_resume
      (runtime := runtime0) (base := base0)
      {| queues := OneStr "prod_med,prod"; submission_queue := None;
         send_job_emails := false; max_workflow_time := Some 14400;
         janis_memory_mb := None |}
      "abc123" (StrList [ "run.sh"; "--flag" ]) "/logs" [] world0
    = (Raise (TypeError (UnexpectedKeyword "wid")), world0).
Proof. by vm_compute. Qed.

(** C6 as the claim words it fails for an override of 0 MB: the override
    is set, and the vector has no --mem. *)
Lemma mem_override_zero_counterexample :
  janis_memory_mb
    {| queues := OneStr "prod_med,prod"; submission_queue := None;
       send_job_emails := false; max_workflow_time := Some 20100;
       janis_memory_mb := Some 0 |} = Some 0
  ∧ PeterMacTemplate_newcommand
      {| queues := OneStr "prod_med,prod"; submission_queue := None;
         send_job_emails := false; max_workflow_time := Some 20100;
         janis_memory_mb := Some 0 |}
      "abc123" (StrList [ "run.sh"; "--flag" ]) "/logs" None
    = [ "sbatch"; "-p"; "janis"; "-J"; "janis-abc123"; "--time"; "20100";
        "-o"; "/logs/slurm.stdout"; "-e"; "/logs/slurm.stderr";
        "--wrap"; "run.sh --flag" ]
  ∧ contains_block [ "--mem"; str_int 0 ]
      (PeterMacTemplate_newcommand
         {| queues := OneStr "prod_med,prod"; submission_queue := None;
            send_job_emails := false; max_workflow_time := Some 20100;
            janis_memory_mb := Some 0 |}
         "abc123" (StrList [ "run.sh"; "--flag" ]) "/logs" None) = false.
Proof. by vm_compute. Qed.

(** C7 as the claim words it fails for an override that is the empty
    string: the token after -p is the configured queue. *)
Lemma pawsey_empty_override_counterexample :
  submission_queue
    {| queues := OneStr "workq"; submission_queue := Some "";
       send_job_emails := true; max_workflow_time := None;
       janis_memory_mb := None |} = Some ""
  ∧ PawseyDisconnectedTemplate_newcommand
      {| queues := OneStr "workq"; submission_queue := Some "";
         send_job_emails := true; max_workflow_time := None;
         janis_memory_mb := None |}
      "abc123" (StrList [ "run.sh"; "--flag" ]) "/logs" !! 2%nat
    = Some "workq"
  ∧ PawseyDisconnectedTemplate_newcommand
      {| queues := OneStr "workq"; submission_queue := Some "";
         send_job_emails := true; max_workflow_time := None;
         janis_memory_mb := None |}
      "abc123" (StrList [ "run.sh"; "--flag" ]) "/logs" !! 2%nat
    ≠ Some "".
Proof. by vm_compute. Qed.

(* ===================================================================== *)
(** ** The theorems with hypotheses, at concrete inputs *)
(* ===================================================================== *)

(** C3 at the default arguments with email_format="molpath", then with
    email_format="research". *)
Lemma PeterMacTemplate_email_format_check_witness :
  fst (PeterMacTemplate___init__ (runtime := runtime0) (base := base0)
         [] [ ("email_format", VStr "molpath") ] world0) = Ok ()
  ∧ ∃ choices,
      fst (PeterMacTemplate___init__ (runtime := runtime0) (base := base0)
             [] [ ("email_format", VStr "research") ] world0)
      = Raise (Exception ("Argument email_format: invalid choice: 'research' (choose from "
                          +:+ choices +:+ ")"))
      ∧ (choices = "'None', 'molpath'" ∨ choices = "'molpath', 'None'").
Proof.
  split.
  - pose (env := match bind_arguments PeterMacTemplate_params []
                         [ ("email_format", VStr "molpath") ] with
                 | Ok e => e
                 | Raise _ => ∅
                 end).
    destruct (PeterMacTemplate_email_format_check (runtime := runtime0)
                (base := base0) [] [ ("email_format", VStr "molpath") ] env
                (Some "molpath") world0 eq_refl eq_refl)
      as [Hvalid _].
    rewrite Hvalid by (right; reflexivity). reflexivity.
  - pose (env := match bind_arguments PeterMacTemplate_params []
                         [ ("email_format", VStr "research") ] with
                 | Ok e => e
                 | Raise _ => ∅
                 end).
    destruct (PeterMacTemplate_email_format_check (runtime := runtime0)
                (base := base0) [] [ ("email_format", VStr "research") ] env
                (Some "research") world0 eq_refl eq_refl)
      as [_ Hinvalid].
    destruct (Hinvalid "research" eq_refl) as (choices & Hr & Hc & _);
      [discriminate|].
    exists choices. split; [exact Hr | exact Hc].
Defined.

(** C4 at the two required directories, and at no argument at all. *)
Lemma disconnected_constructors_raise_TypeError_witness :
  fst (PawseyDisconnectedTemplate___init__ (runtime := runtime0) (base := base0)
         [ VStr "/scratch/exec"; VStr "/scratch/containers" ] [] world0)
  = Raise (TypeError (MissingRequired [ "containerDir" ]))
  ∧ fst (PeterMacDisconnectedTemplate___init__ (runtime := runtime0) (base := base0)
           [] [] world0)
    = Raise (TypeError (UnexpectedKeyword "executionDir")).
Proof.
  pose (env1 := match bind_arguments PawseyDisconnectedTemplate_params
                        [ VStr "/scratch/exec"; VStr "/scratch/containers" ] [] with
                | Ok e => e
                | Raise _ => ∅
                end).
  pose (env2 := match bind_arguments PeterMacDisconnectedTemplate_params [] [] with
                | Ok e => e
                | Raise _ => ∅
                end).
  destruct (disconnected_constructors_raise_TypeError (runtime := runtime0)
              (base := base0)
              [ VStr "/scratch/exec"; VStr "/scratch/containers" ] [] [] []
              env1 env2 world0 eq_refl eq_refl)
    as (Hr1 & _ & Hr2 & _).
  split; [exact Hr1 | exact Hr2].
Defined.

(** C7 with the override "longq", and without an override. *)
Lemma pawsey_partition_resolution_witness :
  PawseyDisconnectedTemplate_newcommand
    {| queues := StrList [ "workq"; "debugq" ]; submission_queue := Some "longq";
       send_job_emails := true; max_workflow_time := None;
       janis_memory_mb := None |}
    "abc123" (StrList [ "run.sh"; "--flag" ]) "/logs" !! 2%nat = Some "longq"
  ∧ PawseyDisconnectedTemplate_newcommand
      {| queues := StrList [ "workq"; "debugq" ]; submission_queue := None;
         send_job_emails := true; max_workflow_time := None;
         janis_memory_mb := None |}
      "abc123" (StrList [ "run.sh"; "--flag" ]) "/logs" !! 2%nat
    = Some "workq, debugq".
Proof.
  split.
  - apply (pawsey_partition_resolution
             {| queues := StrList [ "workq"; "debugq" ];
                submission_queue := Some "longq";
                send_job_emails := true; max_workflow_time := None;
                janis_memory_mb := None |}); [reflexivity | discriminate].
  - apply (pawsey_partition_resolution
             {| queues := StrList [ "workq"; "debugq" ];
                submission_queue := None;
                send_job_emails := true; max_workflow_time := None;
                janis_memory_mb := None |}). left. reflexivity.
Defined.

(** C8 at the version "3.4.0" on both classes. *)
Lemma module_load_instruction_witness :
  (∃ fw,
      calls (snd (PawseyTemplate___init__ (runtime := runtime0) (base := base0)
                    [ VStr "/scratch/containers" ]
                    [ ("singularityVersion", VStr "3.4.0") ] world0))
      = [ BaseInit fw ]
      ∧ kw_lookup "singularityLoadInstructions" fw
        = Some (VStr "module load singularity/3.4.0"))
  ∧ (∃ fw,
        calls (snd (PeterMacTemplate___init__ (runtime := runtime0) (base := base0)
                      [] [] world0))
        = [ BaseInit fw ]
        ∧ kw_lookup "singularity_load_instructions" fw
          = Some (VStr "module load singularity/3.4.0")).
Proof.
  split.
  - pose (env := match bind_arguments PawseyTemplate_params
                         [ VStr "/scratch/containers" ]
                         [ ("singularityVersion", VStr "3.4.0") ] with
                 | Ok e => e
                 | Raise _ => ∅
                 end).
    apply (module_load_instruction (runtime := runtime0) (base := base0)
             _ _ env (Some "3.4.0") world0);
      [discriminate | reflexivity | reflexivity].
  - pose (env := match bind_arguments PeterMacTemplate_params [] [] with
                 | Ok e => e
                 | Raise _ => ∅
                 end).
    apply (module_load_instruction (runtime := runtime0) (base := base0)
             _ _ env (Some "3.4.0") world0);
      [discriminate | reflexivity | reflexivity |].
    change (env !!! "email_format") with VNone. left.
Defined.

(** C9 at a running status and a run with one input, tagged "sample". *)
Lemma prepare_run_status_table_empty_witness :
  prepare_run_status_table (runtime := runtime0) (ops := status0_ops) Running0
    {| inputs := [ {| tag := "sample"; value := VStr "NA12878" |} ];
       jobs := [ {| name := "align"; status := Running0 |} ] |} = "".
Proof.
  apply prepare_run_status_table_empty.
  - reflexivity.
  - intros i Hi. apply list_elem_of_singleton in Hi. subst i. discriminate.
Defined.

(* ===================================================================== *)
(** ** The molpath email at a status that is not final *)
(* ===================================================================== *)

(** X19. With email_format "molpath" and a status that is not final, the
    body from [prepare_status_update_email] is fixed by the status, the
    id, the run names and the two directories: it does not depend on what
    [metadata.format] returns, on the inputs and jobs of the runs, or on
    the renderer of the base class. *)
Theorem molpath_email_not_final
    `{runtime : !PythonRuntime} {TaskStatus : Type} `{ops : !TaskStatusOps TaskStatus}
    (base1 base2 : TaskStatus → SubmissionModel (TaskStatus := TaskStatus) → string)
    (st : TaskStatus) (m1 m2 : SubmissionModel) :
  is_in_final_state st = false →
  id_ m1 = id_ m2 →
  run_name <$> runs m1 = run_name <$> runs m2 →
  execution_dir m1 = execution_dir m2 →
  output_dir m1 = output_dir m2 →
  prepare_status_update_email base1 (Some "molpath") st m1
  = prepare_status_update_email base2 (Some "molpath") st m2.
Proof.
  intros Hfinal Hid Hnames Hexec Hout.
  unfold prepare_status_update_email, prepare_molpath_status_update_email,
    joined_run_names.
  rewrite bool_decide_eq_true_2 by done.
  by rewrite Hfinal, Hid, Hnames, Hexec, Hout.
Qed.

(** X2. [post_configuration_hook] raises exactly when the hook of the base
    class raises, and then the same exception; and its own step is
    idempotent: run again on a configuration it returned, behind a base
    hook that changes nothing, it returns that configuration unchanged. *)
Theorem post_configuration_hook_errors_and_idempotence
    (base_hook : HookConfiguration → result HookConfiguration)
    (configuration : HookConfiguration) :
  (∀ e, post_configuration_hook base_hook configuration = Raise e
        ↔ base_hook configuration = Raise e)
  ∧ (∀ configuration',
       post_configuration_hook base_hook configuration = Ok configuration' →
       post_configuration_hook (λ c, Ok c) configuration' = Ok configuration').
Proof.
  unfold post_configuration_hook.
  destruct (base_hook configuration) as [[[[m|] settings] gen]|e0]; cbn.
  - case_bool_decide as Hm; cbn; (split; [done|]); intros c' [= <-]; [done|].
    cbn. by rewrite bool_decide_eq_false_2.
  - split; [done|]. by intros c' [= <-].
  - split; [done|]. done.
Qed.

(* ===================================================================== *)
(** ** Further theorems with hypotheses, at concrete inputs *)
(* ===================================================================== *)

(** X1 with a base hook that leaves the configuration as it is, and no
    caching method chosen. *)
Lemma post_configuration_hook_caching_method_witness :
  post_configuration_hook (λ c, Ok c)
    {| cromwell := {| call_caching_method := None; cromwell_settings := [] |};
       general := {| notifications := None |} |}
  = Ok {| cromwell := {| call_caching_method := Some "fingerprint";
                         cromwell_settings := [] |};
          general := {| notifications := None |} |}.
Proof.
  destruct (post_configuration_hook_caching_method (λ c, Ok c)
              {| cromwell := {| call_caching_method := None; cromwell_settings := [] |};
                 general := {| notifications := None |} |}
              _ eq_refl) as (method & Hhook & _ & _ & Hdefault).
  rewrite Hhook. rewrite (Hdefault (or_introl eq_refl)). reflexivity.
Defined.

(** X2 with a configuration that has no caching method yet. *)
Lemma post_configuration_hook_errors_and_idempotence_witness :
  post_configuration_hook (λ c, Ok c)
    {| cromwell := {| call_caching_method := Some "fingerprint";
                      cromwell_settings := [] |};
       general := {| notifications := None |} |}
  = Ok {| cromwell := {| call_caching_method := Some "fingerprint";
                         cromwell_settings := [] |};
          general := {| notifications := None |} |}.
Proof.
  apply (proj2 (post_configuration_hook_errors_and_idempotence (λ c, Ok c)
                  {| cromwell := {| call_caching_method := None;
                                    cromwell_settings := [] |};
                     general := {| notifications := None |} |})).
  reflexivity.
Defined.

(** X3 with two runs of the same name. *)
Lemma joined_run_names_distinct_witness :
  joined_run_names (runtime := runtime0) (TaskStatus := status0)
    {| id_ := "abc123";
       runs := [ {| run_name := "wgs"; run_model := {| inputs := []; jobs := [] |} |};
                 {| run_name := "wgs"; run_model := {| inputs := []; jobs := [] |} |} ];
       execution_dir := "/exec"; output_dir := "/out";
       format := λ _ _, "" |}
  = "wgs".
Proof.
  apply joined_run_names_distinct; [discriminate|].
  intros r Hr. cbn [runs] in Hr.
  apply elem_of_cons in Hr as [-> | Hr]; [reflexivity|].
  apply list_elem_of_singleton in Hr. subst r. reflexivity.
Defined.

(** X4 with a colour and a border given by the caller. *)
Lemma table_style_gen_entries_witness :
  ∃ entries,
    table_style_gen [ ("color", "#5cb85c"); ("border", "none") ]
    = "style=" +:+ dquote
        +:+ join " " ((λ e, fst e +:+ ": " +:+ snd e +:+ ";") <$> entries)
        +:+ dquote
    ∧ entries.*1 = [ "color"; "border"; "padding" ]
    ∧ dict_get "border" entries = Some "1px solid black"
    ∧ dict_get "padding" entries = Some "8px"
    ∧ dict_get "color" entries = Some "#5cb85c".
Proof.
  destruct (table_style_gen_entries [ ("color", "#5cb85c"); ("border", "none") ])
    as (entries & Hstyle & Hkeys & Hborder & Hpadding & Hother).
  exists entries. split; [exact Hstyle|]. split; [exact Hkeys|].
  split; [exact Hborder|]. split; [exact Hpadding|].
  rewrite Hother; [reflexivity | discriminate | discriminate].
Defined.


(** X6 with an earlier seqrun entry that is replaced. *)
Lemma prepare_run_status_table_last_seqrun_witness :
  prepare_run_status_table (runtime := runtime0) (ops := status0_ops) Running0
    {| inputs := [ {| tag := "seqrun"; value := VStr "run_old" |};
                   {| tag := "seqrun"; value := VStr "run_new" |} ];
       jobs := [] |}
  = prepare_run_status_table (runtime := runtime0) (ops := status0_ops) Running0
      {| inputs := [ {| tag := "seqrun"; value := VStr "run_new" |} ];
         jobs := [] |}.
Proof.
  apply (prepare_run_status_table_last_seqrun Running0
           [ {| tag := "seqrun"; value := VStr "run_old" |} ]).
  reflexivity.
Defined.

(** X8 with two queues and no build instructions. *)
Lemma PeterMacTemplate_forwards_queues_witness :
  ∃ fw,
    calls (snd (PeterMacTemplate___init__ (runtime := runtime0) (base := base0)
                  [] [ ("queues", VList [ "prod_med"; "prod" ]) ] world0))
    = [ BaseInit fw ]
    ∧ kw_lookup "queues" fw = Some (VStr "prod_med,prod").
Proof.
  pose (env := match bind_arguments PeterMacTemplate_params []
                       [ ("queues", VList [ "prod_med"; "prod" ]) ] with
               | Ok e => e
               | Raise _ => ∅
               end).
  assert (env !!! "email_format" ∈ expected_email_format) as He.
  { change (env !!! "email_format") with VNone. left. }
  destruct (PeterMacTemplate_forwards_queues (runtime := runtime0) (base := base0)
              [] [ ("queues", VList [ "prod_med"; "prod" ]) ] env world0 eq_refl He)
    as (fw & jq & Hcalls & Hfw & Hlist & _).
  exists fw. split; [exact Hcalls|].
  rewrite Hfw. rewrite (Hlist [ "prod_med"; "prod" ] eq_refl). reflexivity.
Defined.

(** X9 with the empty string as version. *)
Lemma module_load_instruction_plain_witness :
  ∃ env,
    bind_arguments PeterMacTemplate_params [] [ ("singularity_version", VStr "") ]
    = Ok env
    ∧ kw_lookup "singularity_load_instructions"
        (PeterMacTemplate_forwarded (runtime := runtime0) env)
      = Some (VStr "module load singularity").
Proof.
  pose (env := match bind_arguments PeterMacTemplate_params []
                       [ ("singularity_version", VStr "") ] with
               | Ok e => e
               | Raise _ => ∅
               end).
  exists env. split; [reflexivity|].
  exact (proj2 (module_load_instruction_plain (runtime := runtime0) [] 
                  [ ("singularity_version", VStr "") ] env) eq_refl eq_refl).
Defined.

(** X10 with a list, then with an int. *)
Lemma PeterMacTemplate_email_format_other_types_witness :
  fst (PeterMacTemplate___init__ (runtime := runtime0) (base := base0)
         [] [ ("email_format", VList [ "molpath" ]) ] world0)
  = Raise (TypeError Unhashable)
  ∧ ∃ msg,
      fst (PeterMacTemplate___init__ (runtime := runtime0) (base := base0)
             [] [ ("email_format", VInt 7) ] world0)
      = Raise (Exception msg).
Proof.
  split.
  - pose (env := match bind_arguments PeterMacTemplate_params []
                         [ ("email_format", VList [ "molpath" ]) ] with
                 | Ok e => e
                 | Raise _ => ∅
                 end).
    exact (proj1 (proj1 (PeterMacTemplate_email_format_other_types
                           (runtime := runtime0) (base := base0)
                           [] [ ("email_format", VList [ "molpath" ]) ] env world0
                           eq_refl) [ "molpath" ] eq_refl)).
  - pose (env := match bind_arguments PeterMacTemplate_params []
                         [ ("email_format", VInt 7) ] with
                 | Ok e => e
                 | Raise _ => ∅
                 end).
    assert (env !!! "email_format" = VInt 7) as He by reflexivity.
    destruct (proj2 (PeterMacTemplate_email_format_other_types
                       (runtime := runtime0) (base := base0)
                       [] [ ("email_format", VInt 7) ] env world0 eq_refl))
      as (Hr & _).
    + intros l. rewrite He. discriminate.
    + rewrite He. unfold expected_email_format.
      rewrite !elem_of_cons, elem_of_nil. intros [? | [? | []]]; discriminate.
    + eexists. exact Hr.
Defined.

(** X11 with the queues alone. *)
Lemma PawseyTemplate_requires_containerDir_witness :
  PawseyTemplate___init__ (runtime := runtime0) (base := base0)
    [] [ ("queues", VStr "workq") ] world0
  = (Raise (TypeError (MissingRequired [ "containerDir" ])), world0).
Proof.
  apply PawseyTemplate_requires_containerDir.
  - apply (bool_decide_unpack _). vm_compute. reflexivity.
  - intros k Hk. apply list_elem_of_singleton in Hk. subst k.
    apply (bool_decide_unpack _). vm_compute. reflexivity.
  - apply (bool_decide_unpack _). vm_compute. reflexivity.
Defined.

(** X12 with a configured time, and with the time 0. *)
Lemma duration_token_witness :
  PeterMacTemplate_newcommand
    {| queues := OneStr "prod_med,prod"; submission_queue := None;
       send_job_emails := false; max_workflow_time := Some 20100;
       janis_memory_mb := None |}
    "abc123" (StrList [ "run.sh"; "--flag" ]) "/logs" None !! 6%nat = Some "20100"
  ∧ PeterMacDisconnectedTemplate_newcommand
      {| queues := OneStr "prod_med,prod"; submission_queue := None;
         send_job_emails := false; max_workflow_time := Some 0;
         janis_memory_mb := None |}
      "abc123" (StrList [ "run.sh"; "--flag" ]) "/logs" !! 6%nat = Some "1440".
Proof.
  split.
  - pose proof (duration_token
                  {| queues := OneStr "prod_med,prod"; submission_queue := None;
                     send_job_emails := false; max_workflow_time := Some 20100;
                     janis_memory_mb := None |}
                  "abc123" (StrList [ "run.sh"; "--flag" ]) "/logs" None) as Hd.
    cbv zeta in Hd. destruct Hd as (_ & Hset & _).
    apply (Hset 20100); [reflexivity | discriminate].
  - pose proof (duration_token
                  {| queues := OneStr "prod_med,prod"; submission_queue := None;
                     send_job_emails := false; max_workflow_time := Some 0;
                     janis_memory_mb := None |}
                  "abc123" (StrList [ "run.sh"; "--flag" ]) "/logs" None) as Hd.
    cbv zeta in Hd. destruct Hd as (_ & _ & Hfallback).
    apply Hfallback. right. reflexivity.
Defined.

(** X15 with the directory "/logs". *)
Lemma log_paths_witness :
  PawseyDisconnectedTemplate_newcommand
    {| queues := OneStr "workq"; submission_queue := Some "longq";
       send_job_emails := true; max_workflow_time := None;
       janis_memory_mb := None |}
    "abc123" (StrList [ "run.sh"; "--flag" ]) "/logs" !! 8%nat
  = Some "/logs/slurm.stdout".
Proof.
  destruct (log_paths
              {| queues := OneStr "workq"; submission_queue := Some "longq";
                 send_job_emails := true; max_workflow_time := None;
                 janis_memory_mb := None |}
              "abc123" (StrList [ "run.sh"; "--flag" ]) "/logs" None)
    as (out & err & Hv & _ & _ & Hplain).
  destruct (Hv _ (or_intror (or_intror eq_refl))) as (_ & Hout & _).
  rewrite Hout. destruct Hplain as [-> _]; [discriminate| |reflexivity].
  intros d Hd.
  assert (endswith_sep "/logs" = true) as He
    by (apply endswith_sep_spec; by exists d).
  discriminate He.
Defined.

(** X16 with one extra keyword. *)
Lemma PeterMacTemplate_submit_delegates_witness :
  fst (PeterMacTemplate_submit_detatched_resume (base := base0)
         {| queues := OneStr "prod_med,prod"; submission_queue := None;
            send_job_emails := false; max_workflow_time := Some 20100;
            janis_memory_mb := None |}
         "abc123" (StrList [ "run.sh"; "--flag" ]) "/logs" None
         [ ("dryrun", VBool false) ] world0)
  = Ok ().
Proof.
  rewrite (proj1 (PeterMacTemplate_submit_delegates (base := base0)
                    {| queues := OneStr "prod_med,prod"; submission_queue := None;
                       send_job_emails := false; max_workflow_time := Some 20100;
                       janis_memory_mb := None |}
                    "abc123" (StrList [ "run.sh"; "--flag" ]) "/logs" None
                    [ ("dryrun", VBool false) ] world0
                    ltac:(apply (bool_decide_unpack _); vm_compute; reflexivity))).
  reflexivity.
Defined.

(** X17 with capture_output=False among the extra keywords. *)
Lemma PeterMacTemplate_submit_capture_output_clash_witness :
  ∃ k,
    PeterMacTemplate_submit_detatched_resume (base := base0)
      {| queues := OneStr "prod_med,prod"; submission_queue := None;
         send_job_emails := false; max_workflow_time := Some 20100;
         janis_memory_mb := None |}
      "abc123" (StrList [ "run.sh"; "--flag" ]) "/logs" None
      [ ("capture_output", VBool false) ] world0
    = (Raise (TypeError (MultipleValues k)), world0).
Proof.
  apply PeterMacTemplate_submit_capture_output_clash.
  apply (bool_decide_unpack _). vm_compute. reflexivity.
Defined.

(** X19 with two submissions that differ in their progress text and in
    the jobs of their run, and two different base renderers. *)
Lemma molpath_email_not_final_witness :
  prepare_status_update_email (runtime := runtime0) (ops := status0_ops)
    (λ _ _, "base body") (Some "molpath") Running0
    {| id_ := "abc123";
       runs := [ {| run_name := "wgs";
                    run_model := {| inputs := [];
                                    jobs := [ {| name := "align"; status := Running0 |} ] |} |} ];
       execution_dir := "/exec"; output_dir := "/out";
       format := λ _ _, "1/2 jobs" |}
  = prepare_status_update_email (runtime := runtime0) (ops := status0_ops)
      (λ _ _, "") (Some "molpath") Running0
      {| id_ := "abc123";
         runs := [ {| run_name := "wgs"; run_model := {| inputs := []; jobs := [] |} |} ];
         execution_dir := "/exec"; output_dir := "/out";
         format := λ _ _, "" |}.
Proof. apply molpath_email_not_final; reflexivity. Defined.
